(** * pytex: a shallow embedding of [pytex.py] and its specification

    [pytex.py] builds a LaTeX document out of Python values: a document
    object produces the preamble, a builder keeps the list of lines and
    appends rendered content, and a small family of classes renders text
    runs and mathematical expressions.

    A Python [str] is a sequence of code points.  The embedding uses Rocq's
    [string], one [ascii] per code point, and so covers the code points
    U+0000 to U+00FF.  The built-ins the program calls ([str.lower],
    [str.strip], [str.split], [str.endswith], [str()], and the [%] operator
    on strings) are written out in module [Py] for that range, following
    CPython 3.11.  Exceptions are values of a [result] type. *)

From Stdlib Require Import ZArith NArith Ascii String List Lia DecimalString.
From stdpp Require Import base gmap strings list.

(** * Python built-ins *)

Module Py.

(** The exception classes the program can raise.  [Exception msg] is the
    plain [raise Exception(msg)] of [Integral.__init__]. *)
Inductive exn : Type :=
| TypeError
| ValueError
| AttributeError
| IndexError
| Exception (msg : string).

Inductive result (A : Type) : Type :=
| Ok (a : A)
| Raise (e : exn).
Arguments Ok {A} a.
Arguments Raise {A} e.

Definition bind {A B : Type} (r : result A) (k : A -> result B) : result B :=
  match r with
  | Ok a => k a
  | Raise e => Raise e
  end.

Notation "'let*' x := r 'in' k" :=
  (bind r (fun x => k))
  (at level 10, x name, r at level 100, k at level 200, only parsing).

Definition returns {A : Type} (r : result A) : Prop := exists a, r = Ok a.
Definition raises {A : Type} (r : result A) : Prop := exists e, r = Raise e.

(** ** Code points *)

Definition ord (c : ascii) : N := N_of_ascii c.
Definition chr (n : N) : ascii := ascii_of_N n.

Definition LF : ascii := "010"%char.
Definition TAB : ascii := "009"%char.
Definition CR : ascii := "013"%char.
Definition DQUOTE : ascii := "034"%char.
Definition SQUOTE : ascii := "039"%char.
Definition BACKSLASH : ascii := "092"%char.

Definition between (lo hi n : N) : bool := ((lo <=? n) && (n <=? hi))%N.

(** [str.isspace] on one code point: U+0009..U+000D, U+001C..U+0020,
    U+0085 and U+00A0. *)
Definition isspace (c : ascii) : bool :=
  let n := ord c in
  between 9 13 n || between 28 32 n || (n =? 133)%N || (n =? 160)%N.

Definition isdigit (c : ascii) : bool := between 48 57 (ord c).

Definition digit_val (c : ascii) : N := (ord c - 48)%N.

(** [str.lower] on one code point: A..Z and the capital letters of Latin-1
    (U+00C0..U+00DE without the multiplication sign U+00D7). *)
Definition lower_char (c : ascii) : ascii :=
  let n := ord c in
  if between 65 90 n || (between 192 222 n && negb (n =? 215)%N)
  then chr (n + 32)
  else c.

Fixpoint lower (s : string) : string :=
  match s with
  | EmptyString => EmptyString
  | String c s' => String (lower_char c) (lower s')
  end.

(** [str.isprintable] on one code point, as [repr] uses it. *)
Definition isprintable (c : ascii) : bool :=
  let n := ord c in
  negb ((n <? 32)%N || between 127 160 n || (n =? 173)%N).

(** ** Strings *)

Definition str1 (c : ascii) : string := String c EmptyString.

Fixpoint lstrip (s : string) : string :=
  match s with
  | EmptyString => EmptyString
  | String c s' => if isspace c then lstrip s' else s
  end.

Fixpoint rstrip (s : string) : string :=
  match s with
  | EmptyString => EmptyString
  | String c s' =>
      match rstrip s' with
      | EmptyString => if isspace c then EmptyString else str1 c
      | r => String c r
      end
  end.

(** [s.strip()] *)
Definition strip (s : string) : string := rstrip (lstrip s).

(** [s.split(sep)] for a separator of one code point: the pieces between
    the occurrences of [sep], empty pieces included. *)
Fixpoint split (sep : ascii) (s : string) : list string :=
  match s with
  | EmptyString => [EmptyString]
  | String c s' =>
      if Ascii.eqb c sep then EmptyString :: split sep s'
      else match split sep s' with
           | piece :: pieces => String c piece :: pieces
           | [] => [str1 c]
           end
  end.

(** [s.endswith(suffix)] *)
Fixpoint endswith (s suffix : string) : bool :=
  if String.eqb s suffix then true
  else match s with
       | EmptyString => false
       | String _ s' => endswith s' suffix
       end.

Fixpoint contains (c : ascii) (s : string) : bool :=
  match s with
  | EmptyString => false
  | String c' s' => Ascii.eqb c c' || contains c s'
  end.

Fixpoint count (c : ascii) (s : string) : nat :=
  match s with
  | EmptyString => 0
  | String c' s' => (if Ascii.eqb c' c then 1 else 0) + count c s'
  end.

(** [s[:n]] *)
Fixpoint take (n : N) (s : string) : string :=
  match s with
  | EmptyString => EmptyString
  | String c s' => if (n =? 0)%N then EmptyString else String c (take (N.pred n) s')
  end.

Fixpoint spaces (n : nat) : string :=
  match n with
  | O => EmptyString
  | S n' => String " " (spaces n')
  end.

(** [str(n)] for an [int] *)
Definition str_of_int (z : Z) : string := NilZero.string_of_int (Z.to_int z).

(** ** [repr] and [ascii] of a string (the [%r] and [%a] conversions) *)

Definition hex_digit (n : N) : ascii :=
  if (n <? 10)%N then chr (48 + n) else chr (87 + n).

Definition escape_x (c : ascii) : string :=
  String BACKSLASH
    (String "x" (String (hex_digit (ord c / 16)) (str1 (hex_digit (ord c mod 16))))).

Definition repr_char (quote : ascii) (ascii_only : bool) (c : ascii) : string :=
  if Ascii.eqb c quote || Ascii.eqb c BACKSLASH then String BACKSLASH (str1 c)
  else if Ascii.eqb c TAB then String BACKSLASH "t"
  else if Ascii.eqb c LF then String BACKSLASH "n"
  else if Ascii.eqb c CR then String BACKSLASH "r"
  else if negb (isprintable c) || (ascii_only && (128 <=? ord c)%N) then escape_x c
  else str1 c.

Fixpoint repr_body (quote : ascii) (ascii_only : bool) (s : string) : string :=
  match s with
  | EmptyString => str1 quote
  | String c s' => repr_char quote ascii_only c +:+ repr_body quote ascii_only s'
  end.

Definition repr_with (ascii_only : bool) (s : string) : string :=
  let quote := if contains SQUOTE s && negb (contains DQUOTE s) then DQUOTE else SQUOTE in
  String quote (repr_body quote ascii_only s).

Definition repr : string -> string := repr_with false.
Definition ascii_repr : string -> string := repr_with true.

(** ** [format % arg] with [arg] a [str]

    A [str] on the right of [%] is the only argument of the format.  The
    format is read one code point at a time; [phase] records where in a
    conversion specifier [%[flags][width][.precision][length]type] the reader
    stands. *)

Definition PY_SSIZE_T_MAX : N := 9223372036854775807.
Definition INT_MAX : N := 2147483647.

Inductive phase : Type :=
| Literal
| Percent
| Flags (ljust : bool)
| Width (ljust : bool) (width : N)
| Dot (ljust : bool) (width : option N)
| Precision (ljust : bool) (width : option N) (prec : N)
| Conversion (ljust : bool) (width : option N) (prec : option N).

Inductive action : Type :=
| Next (ph : phase)
| Emit (out : string) (consumed : bool)
| Fail (e : exn).

Definition is_flag (c : ascii) : bool :=
  Ascii.eqb c "-" || Ascii.eqb c "+" || Ascii.eqb c " " || Ascii.eqb c "#" || Ascii.eqb c "0".

Definition is_length_modifier (c : ascii) : bool :=
  Ascii.eqb c "h" || Ascii.eqb c "l" || Ascii.eqb c "L".

Definition is_number_conversion (c : ascii) : bool :=
  contains c "iduoxXeEfFgG".

(** Truncate to the precision (for [s], [r], [a]) and pad to the width. *)
Definition truncate (prec : option N) (s : string) : string :=
  match prec with
  | Some p => take p s
  | None => s
  end.

Definition pad (ljust : bool) (width : option N) (s : string) : string :=
  match width with
  | Some w =>
      let fill := spaces (N.to_nat (w - N.of_nat (String.length s))) in
      if ljust then s +:+ fill else fill +:+ s
  | None => s
  end.

(** The conversion type [c] is reached: the argument is fetched first, then
    converted. *)
Definition convert (ljust : bool) (width prec : option N) (arg : option string)
    (c : ascii) : action :=
  match arg with
  | None => Fail TypeError
  | Some a =>
      if Ascii.eqb c "s" then Emit (pad ljust width (truncate prec a)) true
      else if Ascii.eqb c "r" then Emit (pad ljust width (truncate prec (repr a))) true
      else if Ascii.eqb c "a" then Emit (pad ljust width (truncate prec (ascii_repr a))) true
      else if Ascii.eqb c "c" then
        if (String.length a =? 1)%nat then Emit (pad ljust width a) true else Fail TypeError
      else if is_number_conversion c then Fail TypeError
      else Fail ValueError
  end.

Definition after_precision (ljust : bool) (width prec : option N)
    (arg : option string) (c : ascii) : action :=
  if is_length_modifier c then Next (Conversion ljust width prec)
  else convert ljust width prec arg c.

Definition after_width (ljust : bool) (width : option N) (arg : option string)
    (c : ascii) : action :=
  if Ascii.eqb c "." then Next (Dot ljust width)
  else after_precision ljust width None arg c.

Definition after_flags (ljust : bool) (arg : option string) (c : ascii) : action :=
  if Ascii.eqb c "*" then Fail TypeError
  else if isdigit c then Next (Width ljust (digit_val c))
  else after_width ljust None arg c.

Definition in_flags (ljust : bool) (arg : option string) (c : ascii) : action :=
  if is_flag c then Next (Flags (ljust || Ascii.eqb c "-"))
  else after_flags ljust arg c.

Definition step (ph : phase) (arg : option string) (c : ascii) : action :=
  match ph with
  | Literal => if Ascii.eqb c "%" then Next Percent else Emit (str1 c) false
  | Percent =>
      if Ascii.eqb c "%" then Emit "%" false
      else if Ascii.eqb c "(" then Fail TypeError
      else in_flags false arg c
  | Flags ljust => in_flags ljust arg c
  | Width ljust w =>
      if isdigit c then
        if (PY_SSIZE_T_MAX - digit_val c <? 10 * w)%N then Fail ValueError
        else Next (Width ljust (10 * w + digit_val c))
      else after_width ljust (Some w) arg c
  | Dot ljust width =>
      if Ascii.eqb c "*" then Fail TypeError
      else if isdigit c then Next (Precision ljust width (digit_val c))
      else after_precision ljust width (Some 0%N) arg c
  | Precision ljust width p =>
      if isdigit c then
        if (INT_MAX - digit_val c <? 10 * p)%N then Fail ValueError
        else Next (Precision ljust width (10 * p + digit_val c))
      else after_precision ljust width (Some p) arg c
  | Conversion ljust width prec => convert ljust width prec arg c
  end.

Fixpoint format_from (ph : phase) (arg : option string) (fmt : string) : result string :=
  match fmt with
  | EmptyString =>
      match ph, arg with
      | Literal, None => Ok EmptyString
      | Literal, Some _ => Raise TypeError
      | _, _ => Raise ValueError
      end
  | String c fmt' =>
      match step ph arg c with
      | Next ph' => format_from ph' arg fmt'
      | Emit out consumed =>
          let* rest := format_from Literal (if consumed then None else arg) fmt' in
          Ok (out +:+ rest)
      | Fail e => Raise e
      end
  end.

(** [fmt % arg] *)
Definition str_mod (fmt arg : string) : result string :=
  format_from Literal (Some arg) fmt.

End Py.

Import Py.

(** * The program *)

Definition nl : string := str1 LF.

Definition PI : string := "\pi".
Definition LATEX : string := "\LaTeX{}".

Definition BEGIN_DOCUMENT : string := "\begin{document}" +:+ nl.
Definition END_DOCUMENT : string := "\end{document}".

(** An attribute that holds [None] or a [str], tested with [if attr:]:
    the string when it is true (not [None], not empty). *)
Definition truthy (attr : option string) : option string :=
  match attr with
  | Some (String c s) => Some (String c s)
  | _ => None
  end.

(** A file system: the text stored under each path. *)
Abbreviation files := (gmap string string).

(** ** class [_LaTeXDocument] *)

Module _LaTeXDocument.

Record t : Type := {
  path : string;
  document_type : string;
  font_size : Z;
  paper_type : string;
  title : option string;
  author : option string;
  thanks : option string;
  date : option string;
  make_title : bool;
  opts : gset string
}.

Definition __init__ (path document_type : string) (font_size : Z)
    (paper_type : string) (title author thanks date : option string)
    (make_title : bool) (opts : list string) : t :=
  {| path := path;
     document_type := document_type;
     font_size := font_size;
     paper_type := paper_type;
     title := title;
     author := author;
     thanks := thanks;
     date := date;
     make_title := make_title;
     opts := list_to_set (lower <$> opts) |}.

(** The preamble lines that an option flag switches on.  The comment of the
    first one is [Citações padrão ABNT]; its three letters outside ASCII are
    the code points 231, 245 and 227. *)
Definition ABNT_PACKAGE : string :=
  "\usepackage[alf, abnt-emphasize=bf, recuo=0cm, abnt-etal-cite=2, abnt-etal-list=0]{abntex2cite} % Cita"
  +:+ String "231" (String "245" "es padr") +:+ String "227" "o ABNT" +:+ nl.
Definition GRAPHICX_PACKAGE : string := "\usepackage{graphicx}" +:+ nl.
Definition FLOAT_PACKAGE : string := "\usepackage{float}" +:+ nl.
Definition INDENTFIRST_PACKAGE : string := "\usepackage{indentfirst}" +:+ nl.
Definition INPUTENC_PACKAGE : string := "\usepackage[utf8]{inputenc}" +:+ nl.

Definition has (flag : string) (self : t) : bool := bool_decide (flag ∈ opts self).

(** The first line.  The f-string is evaluated first, so the font size and
    the paper type are part of the format that [%] then reads. *)
Definition doc_class (self : t) : result string :=
  str_mod ("\documentclass[" +:+ str_of_int (font_size self) +:+ "pt, "
           +:+ paper_type self +:+ "]{%s}" +:+ nl +:+ nl)
          (document_type self).

Definition start_new_document (self : t) : result (list string) :=
  let* doc_class := doc_class self in
  let lines := [doc_class; INPUTENC_PACKAGE] in
  let lines := if has "abnt" self then lines ++ [ABNT_PACKAGE] else lines in
  let lines :=
    if has "figures" self then
      let lines := lines ++ [GRAPHICX_PACKAGE] in
      if has "float" self then lines ++ [FLOAT_PACKAGE] else lines
    else lines in
  let lines := if has "indentfirst" self then lines ++ [INDENTFIRST_PACKAGE] else lines in
  let lines := lines ++ [nl] in
  let* lines :=
    match truthy (title self) with
    | Some title =>
        let* line := str_mod ("\title{%s}" +:+ nl) title in Ok (lines ++ [line])
    | None => Ok lines
    end in
  let* lines :=
    match truthy (author self) with
    | Some author =>
        match truthy (thanks self) with
        | Some thanks =>
            let* partial := str_mod ("\author{%s\thanks{%s}}" +:+ nl) author in
            let* line := str_mod partial thanks in
            Ok (lines ++ [line])
        | None =>
            let* line := str_mod ("\author{%s}" +:+ nl) author in Ok (lines ++ [line])
        end
    | None => Ok lines
    end in
  let* lines :=
    match truthy (date self) with
    | Some date =>
        let* line := str_mod ("\date{%s}" +:+ nl) date in Ok (lines ++ [line])
    | None => Ok lines
    end in
  let lines := lines ++ [BEGIN_DOCUMENT] in
  let lines := if make_title self then lines ++ ["\maketitle" +:+ nl] else lines in
  let lines := lines ++ ["\frenchspacing" +:+ nl +:+ nl] in
  Ok lines.

(** [write_document] changes the list it is given and writes the file: the
    result is the list after the call, and the file system after the call
    when no exception was raised.  [lines[-1]] raises [IndexError] on an
    empty list.  Failures of the storage itself are outside the model. *)
Definition write_document (self : t) (lines : list string) (fs : files)
    : result files * list string :=
  match last lines with
  | None => (Raise IndexError, lines)
  | Some final =>
      let lines := if String.eqb final END_DOCUMENT then lines else lines ++ [END_DOCUMENT] in
      (Ok (<[path self := String.concat EmptyString lines]> fs), lines)
  end.

End _LaTeXDocument.

(** ** classes [_LaTeXText] and [Text] *)

Module _LaTeXText.

Record t : Type := { content : string }.

Definition __init__ (content : string) : t := {| content := content |}.

Definition __str__ (self : t) : string := content self.

Definition __repr__ (self : t) : string := content self.

(** The right operand of [+] is a [_LaTeXText] or a [str]. *)
Definition __add__ (self : t) (text : t + string) : t :=
  __init__ (content self +:+ match text with inl other => __str__ other | inr s => s end).

End _LaTeXText.

Module Text.

Definition __init__ (content : string) (emph bold underline italic : bool)
    : result _LaTeXText.t :=
  let* content := if italic then str_mod "\textit{%s}" content else Ok content in
  let* content := if underline then str_mod "\underline{%s}" content else Ok content in
  let* content := if bold then str_mod "\textbf{%s}" content else Ok content in
  let* content := if emph then str_mod "\emph{%s}" content else Ok content in
  Ok (_LaTeXText.__init__ content).

End Text.

(** ** class [_LaTeXMath] and its subclasses *)

(** A parameter without a default value: a call that leaves it out raises
    [TypeError]. *)
Definition required {A : Type} (argument : option A) : result A :=
  match argument with
  | Some a => Ok a
  | None => Raise TypeError
  end.

Module _LaTeXMath.

Record t : Type := { content : string; inline : bool }.

(** [__init__(self, content, inline)]: neither parameter has a default. *)
Definition __init__ (content : option string) (inline : option bool) : result t :=
  let* content := required content in
  let* inline := required inline in
  Ok {| content := content; inline := inline |}.

Definition __str__ (self : t) : string := content self.

Definition __repr__ (self : t) : string := content self.

(** The values the constructors and operators of the math classes take:
    a [str], a number (an [int] here), or a math fragment. *)
Module Operand.

Inductive value : Type :=
| VStr (s : string)
| VInt (n : Z)
| VMath (m : t).

(** [str(v)] *)
Definition str (v : value) : string :=
  match v with
  | VStr s => s
  | VInt n => str_of_int n
  | VMath m => __str__ m
  end.

(** The truth value of [v] in [if v:].  An instance of a class that defines
    neither [__bool__] nor [__len__] is true. *)
Definition truth (v : value) : bool :=
  match v with
  | VStr s => negb (String.eqb s EmptyString)
  | VInt n => negb (n =? 0)%Z
  | VMath _ => true
  end.

End Operand.
Import Operand.

(** [__add__] calls the constructor with one argument. *)
Definition __add__ (self : t) (math : value) : result t :=
  __init__ (Some (content self +:+ str math)) None.

Definition __neg__ (self : t) : result t :=
  __init__ (Some ("-" +:+ content self)) (Some (inline self)).

End _LaTeXMath.
Import _LaTeXMath.Operand.

Module Fraction.

(** [n, d = str(fraction).split('/')] raises [ValueError] unless the list has
    two elements. *)
Definition __init__ (fraction : value) (inline : bool) : result _LaTeXMath.t :=
  match split "/" (str fraction) with
  | [n; d] =>
      let content := "\frac" +:+ "{" +:+ strip n +:+ "}" +:+ "{" +:+ strip d +:+ "}" in
      _LaTeXMath.__init__ (Some content) (Some inline)
  | _ => Raise ValueError
  end.

End Fraction.

Module Sqrt.

Definition __init__ (rooting : value) (inline : bool) : result _LaTeXMath.t :=
  let content := "\sqrt{" +:+ str rooting +:+ "}" in
  _LaTeXMath.__init__ (Some content) (Some inline).

End Sqrt.

Module Integral.

Definition BOUNDS_MESSAGE : string :=
  "Integral must have both lower limit and upper limit or neither.".

Definition __init__ (integrand : value) (lower_limit upper_limit result : option value)
    (inline : bool) : Py.result _LaTeXMath.t :=
  let content := EmptyString in
  let* integrand := str_mod "{%s}" (str integrand) in
  let* content :=
    match lower_limit, upper_limit with
    | None, None => Ok (content +:+ "\int " +:+ integrand)
    | Some lower_limit, Some upper_limit =>
        let* lower_limit := str_mod "{%s}" (str lower_limit) in
        let* upper_limit := str_mod "{%s}" (str upper_limit) in
        Ok (content +:+ "\int_" +:+ lower_limit +:+ "^" +:+ upper_limit +:+ " " +:+ integrand)
    | _, _ => Raise (Exception BOUNDS_MESSAGE)
    end in
  let* content :=
    match result with
    | Some result =>
        if truth result then
          let* result := str_mod "{%s}" (str result) in
          Ok (content +:+ " = " +:+ result)
        else Ok content
    | None => Ok content
    end in
  _LaTeXMath.__init__ (Some content) (Some inline).

End Integral.

(** ** class [PyTeX] *)

(** What [append_content] can be handed: a [str], a math fragment, or a text
    run (an instance of [_LaTeXText]). *)
Inductive content_arg : Type :=
| CStr (s : string)
| CMath (m : _LaTeXMath.t)
| CText (t : _LaTeXText.t).

Module PyTeX.

Record t : Type := {
  document : _LaTeXDocument.t;
  _content : list string
}.

Definition DEFAULT_FONT_SIZE : Z := 12.
Definition DEFAULT_PAPER_TYPE : string := "a4paper".

Definition __init__ (path document_type : string) (font_size : Z)
    (paper_type : string) (title author thanks date : option string)
    (make_title : bool) (opts : list string) : result t :=
  let document :=
    _LaTeXDocument.__init__ path document_type font_size paper_type
      title author thanks date make_title opts in
  let* lines := _LaTeXDocument.start_new_document document in
  Ok {| document := document; _content := lines |}.

(** The methods change [self._content] in place, also when they raise: each
    returns its outcome together with the builder after the call. *)

Definition write_document (self : t) (fs : files) : result files * t :=
  let '(outcome, lines) :=
    _LaTeXDocument.write_document (document self) (_content self) fs in
  (outcome, {| document := document self; _content := lines |}).

Definition _remove_end_content (self : t) : result unit * t :=
  match last (_content self) with
  | None => (Raise IndexError, self)
  | Some final =>
      if String.eqb final END_DOCUMENT
      then (Ok tt, {| document := document self; _content := removelast (_content self) |})
      else (Ok tt, self)
  end.

(** [_LaTeXText] has no attribute [endswith]: a text run reaches
    [content.endswith] unconverted and raises [AttributeError]. *)
Definition append_content (self : t) (content : content_arg) : result unit * t :=
  match _remove_end_content self with
  | (Raise e, self) => (Raise e, self)
  | (Ok _, self) =>
      let rendered : result string :=
        match content with
        | CMath m =>
            let inline := _LaTeXMath.inline m in
            let content := _LaTeXMath.content m in
            if inline
            then Ok ("\begin{math}" +:+ nl +:+ (str1 TAB +:+ content +:+ nl) +:+ "\end{math}")
            else Ok ("\begin{equation}" +:+ nl +:+ (str1 TAB +:+ content +:+ nl) +:+ "\end{equation}")
        | CStr s => Ok s
        | CText _ => Raise AttributeError
        end in
      match rendered with
      | Raise e => (Raise e, self)
      | Ok content =>
          let content := if endswith content nl then content else content +:+ nl in
          let content := content +:+ nl in
          (Ok tt, {| document := document self; _content := _content self ++ [content] |})
      end
  end.

End PyTeX.

(** * Definitions used to state the specification *)

(** Wrapping in one styling command, when its flag is set. *)
Definition styled (flag : bool) (command content : string) : string :=
  if flag then command +:+ "{" +:+ content +:+ "}" else content.

(** Exactly one of the two limits of an integral is given. *)
Definition one_limit_only (lower_limit upper_limit : option value) : bool :=
  xorb (bool_decide (is_Some lower_limit)) (bool_decide (is_Some upper_limit)).

(** What a result adds to the content of an integral. *)
Definition result_suffix (result : option value) : string :=
  match result with
  | Some r => if truth r then " = {" +:+ str r +:+ "}" else EmptyString
  | None => EmptyString
  end.

(** Two flags that differ in the case of their letters only. *)
Definition same_up_to_case (a b : string) : Prop := lower a = lower b.

(** How often [line] occurs in a sequence of lines. *)
Definition occurrences (line : string) (lines : list string) : nat :=
  length (filter (λ l, l = line) lines).

(** The package lines the option flags switch on, in the order of the
    preamble: [float] counts under [figures] only. *)
Definition option_packages (self : _LaTeXDocument.t) : list string :=
  (if _LaTeXDocument.has "abnt" self then [_LaTeXDocument.ABNT_PACKAGE] else [])
  ++ (if _LaTeXDocument.has "figures" self
      then _LaTeXDocument.GRAPHICX_PACKAGE
           :: (if _LaTeXDocument.has "float" self then [_LaTeXDocument.FLOAT_PACKAGE] else [])
      else [])
  ++ (if _LaTeXDocument.has "indentfirst" self then [_LaTeXDocument.INDENTFIRST_PACKAGE] else []).

Definition CANONICAL_PACKAGES : list string :=
  [_LaTeXDocument.ABNT_PACKAGE; _LaTeXDocument.GRAPHICX_PACKAGE;
   _LaTeXDocument.FLOAT_PACKAGE; _LaTeXDocument.INDENTFIRST_PACKAGE].

Definition is_option_package (line : string) : Prop := line ∈ CANONICAL_PACKAGES.

(** The package lines of the preamble as the specification words them: each
    one present exactly when its own flag is in the option set. *)
Definition packages_follow_own_flag (self : _LaTeXDocument.t) (lines : list string) : Prop :=
  (_LaTeXDocument.ABNT_PACKAGE ∈ lines ↔ "abnt" ∈ _LaTeXDocument.opts self)
  ∧ (_LaTeXDocument.GRAPHICX_PACKAGE ∈ lines ↔ "figures" ∈ _LaTeXDocument.opts self)
  ∧ (_LaTeXDocument.FLOAT_PACKAGE ∈ lines ↔ "float" ∈ _LaTeXDocument.opts self)
  ∧ (_LaTeXDocument.INDENTFIRST_PACKAGE ∈ lines ↔ "indentfirst" ∈ _LaTeXDocument.opts self).

(** The same with [float] depending on [figures] as well. *)
Definition packages_follow_flags (self : _LaTeXDocument.t) (lines : list string) : Prop :=
  (_LaTeXDocument.ABNT_PACKAGE ∈ lines ↔ "abnt" ∈ _LaTeXDocument.opts self)
  ∧ (_LaTeXDocument.GRAPHICX_PACKAGE ∈ lines ↔ "figures" ∈ _LaTeXDocument.opts self)
  ∧ (_LaTeXDocument.FLOAT_PACKAGE ∈ lines ↔
       "figures" ∈ _LaTeXDocument.opts self ∧ "float" ∈ _LaTeXDocument.opts self)
  ∧ (_LaTeXDocument.INDENTFIRST_PACKAGE ∈ lines ↔ "indentfirst" ∈ _LaTeXDocument.opts self).

(** The lines of the title block and the document class start with a
    backslash followed by [t], [a] or [d]. *)
Definition is_header_line (line : string) : bool :=
  match line with
  | String "\" (String c _) => Ascii.eqb c "t" || Ascii.eqb c "a" || Ascii.eqb c "d"
  | _ => false
  end.

(** [n] calls of [write_document] in a row; an exception ends the run. *)
Fixpoint write_repeatedly (n : nat) (self : PyTeX.t) (fs : files) : result files * PyTeX.t :=
  match n with
  | O => (Ok fs, self)
  | S n' =>
      match PyTeX.write_document self fs with
      | (Ok fs', self') => write_repeatedly n' self' fs'
      | (Raise e, self') => (Raise e, self')
      end
  end.

(** The states a builder can be in: it was constructed, and then any of its
    two public methods was called any number of times. *)
Inductive reachable : PyTeX.t -> Prop :=
| reachable_init path document_type font_size paper_type title author thanks date
    make_title opts self :
    PyTeX.__init__ path document_type font_size paper_type title author thanks date
      make_title opts = Ok self ->
    reachable self
| reachable_append self content :
    reachable self -> reachable (snd (PyTeX.append_content self content))
| reachable_write self fs :
    reachable self -> reachable (snd (PyTeX.write_document self fs)).

(** The line sequence without a closing marker at its end. *)
Definition without_end (lines : list string) : list string :=
  match last lines with
  | Some final => if String.eqb final END_DOCUMENT then removelast lines else lines
  | None => lines
  end.

(** The markup of the content handed to [append]: a math fragment in its
    environment, anything else as its string. *)
Definition markup (content : content_arg) : string :=
  match content with
  | CMath m =>
      if _LaTeXMath.inline m
      then "\begin{math}" +:+ nl +:+ str1 TAB +:+ _LaTeXMath.content m +:+ nl +:+ "\end{math}"
      else "\begin{equation}" +:+ nl +:+ str1 TAB +:+ _LaTeXMath.content m +:+ nl
           +:+ "\end{equation}"
  | CStr s => s
  | CText t => _LaTeXText.__str__ t
  end.

Fixpoint rstrip_newlines (s : string) : string :=
  match s with
  | EmptyString => EmptyString
  | String c s' =>
      match rstrip_newlines s' with
      | EmptyString => if Ascii.eqb c LF then EmptyString else str1 c
      | r => String c r
      end
  end.

(** [append] as the specification words it: the entry ends with exactly one
    newline of its own and one more for the blank line. *)
Definition append_as_specified (lines : list string) (content : content_arg) : list string :=
  without_end lines ++ [(rstrip_newlines (markup content) +:+ nl) +:+ nl].

(** [append] with the newline added only when the markup has none at its
    end. *)
Definition entry (content : content_arg) : string :=
  (if endswith (markup content) nl then markup content else markup content +:+ nl) +:+ nl.

Definition is_text_run (content : content_arg) : bool :=
  match content with
  | CText _ => true
  | _ => false
  end.

(** Strings of whitespace, and strings with whitespace at an end. *)
Fixpoint all_space (s : string) : bool :=
  match s with
  | EmptyString => true
  | String c s' => isspace c && all_space s'
  end.

Definition starts_with_space (s : string) : bool :=
  match s with
  | String c _ => isspace c
  | EmptyString => false
  end.

Fixpoint ends_with_space (s : string) : bool :=
  match s with
  | EmptyString => false
  | String c EmptyString => isspace c
  | String _ s' => ends_with_space s'
  end.

(** The line sequence of a builder is a body of lines, none of them the
    closing marker, with or without the closing marker after it. *)
Definition well_formed (lines : list string) : Prop :=
  exists body : list string,
    body <> [] /\ Forall (λ l, l <> END_DOCUMENT) body
    /\ (lines = body \/ lines = body ++ [END_DOCUMENT]).

(** ** Definitions for the further properties *)

(** The option flags the preamble knows. *)
Definition VOCABULARY : list string := ["abnt"; "figures"; "float"; "indentfirst"].

(** The first line of the preamble when the paper type is copied as it is. *)
Definition class_line (self : _LaTeXDocument.t) : string :=
  "\documentclass[" +:+ str_of_int (_LaTeXDocument.font_size self) +:+ "pt, "
  +:+ _LaTeXDocument.paper_type self +:+ "]{" +:+ _LaTeXDocument.document_type self
  +:+ "}" +:+ nl +:+ nl.

(** The author and the thanks are both set and not empty. *)
Definition author_with_thanks (self : _LaTeXDocument.t) : bool :=
  match truthy (_LaTeXDocument.author self), truthy (_LaTeXDocument.thanks self) with
  | Some _, Some _ => true
  | _, _ => false
  end.

(** The lines of the title block: the title, the author and the date, each
    when it is set and not empty. *)
Definition title_block (self : _LaTeXDocument.t) : list string :=
  match truthy (_LaTeXDocument.title self) with
  | Some title => ["\title{" +:+ title +:+ "}" +:+ nl]
  | None => []
  end
  ++ match truthy (_LaTeXDocument.author self) with
     | Some author => ["\author{" +:+ author +:+ "}" +:+ nl]
     | None => []
     end
  ++ match truthy (_LaTeXDocument.date self) with
     | Some date => ["\date{" +:+ date +:+ "}" +:+ nl]
     | None => []
     end.

(** The preamble after its first line. *)
Definition preamble_after (self : _LaTeXDocument.t) : list string :=
  _LaTeXDocument.INPUTENC_PACKAGE :: option_packages self
  ++ nl :: title_block self
  ++ BEGIN_DOCUMENT
     :: (if _LaTeXDocument.make_title self then ["\maketitle" +:+ nl] else [])
  ++ ["\frenchspacing" +:+ nl +:+ nl].

(** [n] negations in a row. *)
Fixpoint negate_times (n : nat) (m : _LaTeXMath.t) : result _LaTeXMath.t :=
  match n with
  | O => Ok m
  | S n' => bind (negate_times n' m) _LaTeXMath.__neg__
  end.

Fixpoint minus_signs (n : nat) : string :=
  match n with
  | O => EmptyString
  | S n' => String "-" (minus_signs n')
  end.

(** Calls of [append_content] one after the other; an exception ends the
    run. *)
Fixpoint append_each (contents : list content_arg) (self : PyTeX.t) : result unit * PyTeX.t :=
  match contents with
  | [] => (Ok tt, self)
  | content :: contents' =>
      match PyTeX.append_content self content with
      | (Ok _, self') => append_each contents' self'
      | (Raise e, self') => (Raise e, self')
      end
  end.


(** ** Sample documents and builders *)

(** An article whose author comes with thanks. *)
Definition article_with_thanks : _LaTeXDocument.t :=
  _LaTeXDocument.__init__ "main.tex" "article" 12 "a4paper"
    None (Some "Ana") (Some "CNPq") None false [].

(** An article whose paper type holds a percent sign. *)
Definition article_percent_paper : _LaTeXDocument.t :=
  _LaTeXDocument.__init__ "main.tex" "article" 12 "a4%paper" None None None None false [].

(** An article with the flag [float] and no other. *)
Definition float_only : _LaTeXDocument.t :=
  _LaTeXDocument.__init__ "main.tex" "article" 12 "a4paper" None None None None false
    ["float"].

(** Its preamble. *)
Definition float_only_lines : list string :=
  ["\documentclass[12pt, a4paper]{article}" +:+ nl +:+ nl;
   _LaTeXDocument.INPUTENC_PACKAGE; nl; BEGIN_DOCUMENT; "\frenchspacing" +:+ nl +:+ nl].

(** A new builder for an article without options. *)
Definition plain_article : PyTeX.t :=
  {| PyTeX.document :=
       _LaTeXDocument.__init__ "main.tex" "article" 12 "a4paper" None None None None false [];
     PyTeX._content :=
       ["\documentclass[12pt, a4paper]{article}" +:+ nl +:+ nl;
        _LaTeXDocument.INPUTENC_PACKAGE; nl; BEGIN_DOCUMENT; "\frenchspacing" +:+ nl +:+ nl] |}.

(** * Properties of the built-ins *)

Section Strings.

#[local] Arguments String.append !_ _ /.

Lemma append_empty_r (s : string) : s +:+ EmptyString = s.
Proof. induction s as [|c s IH]; simpl; [reflexivity | now rewrite IH]. Qed.

Lemma append_assoc (a b c : string) : (a +:+ b) +:+ c = a +:+ b +:+ c.
Proof. induction a as [|x a IH]; simpl; [reflexivity | now rewrite IH]. Qed.

Lemma count_append (sep : ascii) (a b : string) :
  count sep (a +:+ b) = count sep a + count sep b.
Proof. induction a as [|x a IH]; simpl; [reflexivity | rewrite IH; lia]. Qed.

Lemma split_nonempty (sep : ascii) (s : string) : split sep s <> [].
Proof.
  induction s as [|c s IH]; simpl; [discriminate |].
  destruct (Ascii.eqb c sep); [discriminate |].
  destruct (split sep s); [contradiction | discriminate].
Qed.

(** [split] returns one piece more than there are separators. *)
Lemma split_length (sep : ascii) (s : string) :
  length (split sep s) = S (count sep s).
Proof.
  induction s as [|c s IH]; simpl; [reflexivity |].
  destruct (Ascii.eqb c sep); simpl; [now rewrite IH |].
  pose proof (split_nonempty sep s) as Hne.
  destruct (split sep s); [contradiction | exact IH].
Qed.

Lemma split_no_separator (sep : ascii) (s : string) :
  count sep s = 0 -> split sep s = [s].
Proof.
  induction s as [|c s IH]; simpl; [reflexivity |].
  destruct (Ascii.eqb c sep); [discriminate |].
  intros H. now rewrite (IH H).
Qed.

(** The first piece ends at the first separator. *)
Lemma split_at_first (sep : ascii) (n d : string) :
  count sep n = 0 -> split sep (n +:+ String sep d) = n :: split sep d.
Proof.
  induction n as [|c n IH]; simpl.
  - intros _. now rewrite Ascii.eqb_refl.
  - destruct (Ascii.eqb c sep); [discriminate |].
    intros H. now rewrite (IH H).
Qed.

Lemma endswith_refl (s : string) : endswith s s = true.
Proof. destruct s; unfold endswith; now rewrite String.eqb_refl. Qed.

Lemma endswith_append (s suffix : string) : endswith (s +:+ suffix) suffix = true.
Proof.
  induction s as [|c s IH]; simpl.
  - apply endswith_refl.
  - rewrite IH. match goal with |- (if ?b then _ else _) = _ => now destruct b end.
Qed.

(** [lstrip] removes a run of whitespace at the start, and all of it. *)
Lemma lstrip_spec (s : string) :
  exists l, s = l +:+ lstrip s /\ all_space l = true /\ starts_with_space (lstrip s) = false.
Proof.
  induction s as [|c s (l & Hs & Hl & Hstart)].
  - exists EmptyString. auto.
  - cbn [lstrip]. destruct (isspace c) eqn:Hc.
    + exists (String c l). repeat split; simpl; rewrite ?Hc; try congruence; auto.
    + exists EmptyString. repeat split; simpl; auto.
Qed.

(** [rstrip] removes a run of whitespace at the end, and all of it; the
    start of the string is kept. *)
Lemma rstrip_spec (s : string) :
  exists r,
    s = rstrip s +:+ r /\ all_space r = true /\ ends_with_space (rstrip s) = false
    /\ (starts_with_space s = false -> starts_with_space (rstrip s) = false).
Proof.
  induction s as [|c s (r & Hs & Hr & Hend & _)].
  - exists EmptyString. auto.
  - cbn [rstrip]. destruct (rstrip s) as [|c' s'] eqn:Hrs.
    + destruct (isspace c) eqn:Hc;
        [exists (String c r) | exists r];
        repeat split; simpl in *; rewrite ?Hc; try congruence; auto.
    + exists r. repeat split; simpl in *; try congruence; auto.
Qed.

(** [strip] removes the whitespace around a string: what is removed is
    whitespace, and what is left neither starts nor ends with whitespace. *)
Lemma strip_spec (s : string) :
  exists l r,
    s = l +:+ strip s +:+ r /\ all_space l = true /\ all_space r = true
    /\ starts_with_space (strip s) = false /\ ends_with_space (strip s) = false.
Proof.
  destruct (lstrip_spec s) as (l & Hs & Hl & Hstart).
  destruct (rstrip_spec (lstrip s)) as (r & Hs' & Hr & Hend & Hkeep).
  exists l, r. unfold strip. rewrite <- Hs'. repeat split; auto.
Qed.

End Strings.

Lemma str_mod_braces (s : string) : str_mod "{%s}" s = Ok ("{" +:+ s +:+ "}").
Proof. reflexivity. Qed.

(** * The text and math classes *)

(** C9. [Text] wraps the content in the styling commands whose flag is set,
    [\textit] innermost, then [\underline], then [\textbf], and [\emph]
    outermost; with no flag set the content is kept as it is. *)
Theorem C9_text_nesting_order (content : string) (emph bold underline italic : bool) :
  Text.__init__ content emph bold underline italic
  = Ok {| _LaTeXText.content :=
            styled emph "\emph"
              (styled bold "\textbf"
                 (styled underline "\underline" (styled italic "\textit" content))) |}
  /\ Text.__init__ content false false false false
     = Ok {| _LaTeXText.content := content |}.
Proof.
  split; [| reflexivity].
  destruct emph, bold, underline, italic; reflexivity.
Qed.

(** C1. Adding to a math fragment never returns a fragment: [__add__] calls
    the constructor without the [inline] argument, which has no default, so
    the call raises [TypeError] for every left operand and every right
    operand. *)
Theorem C1_add_raises_type_error (m : _LaTeXMath.t) (x : value) :
  _LaTeXMath.__add__ m x = Raise TypeError.
Proof. reflexivity. Qed.

(** Negation, the sibling of [__add__], passes the flag on. *)
Lemma neg_keeps_inline (m : _LaTeXMath.t) :
  _LaTeXMath.__neg__ m
  = Ok {| _LaTeXMath.content := "-" +:+ _LaTeXMath.content m;
          _LaTeXMath.inline := _LaTeXMath.inline m |}.
Proof. reflexivity. Qed.

Lemma sqrt_content (rooting : value) (inline : bool) :
  Sqrt.__init__ rooting inline
  = Ok {| _LaTeXMath.content := "\sqrt{" +:+ str rooting +:+ "}";
          _LaTeXMath.inline := inline |}.
Proof. reflexivity. Qed.

(** C3. [Fraction] raises [ValueError] (the specification's
    MalformedInputError) exactly when splitting the string at [/] does not
    give two parts, that is when the string does not hold exactly one [/];
    otherwise the content is [\frac] of the two stripped parts.  The three
    examples of the specification are the last three conjuncts. *)
Theorem C3_fraction (s : string) (inline : bool) :
  (Fraction.__init__ (VStr s) inline = Raise ValueError <-> length (split "/" s) <> 2)
  /\ (raises (Fraction.__init__ (VStr s) inline) <-> count "/" s <> 1)
  /\ (forall n d : string,
        s = n +:+ "/" +:+ d -> count "/" n = 0 -> count "/" d = 0 ->
        Fraction.__init__ (VStr s) inline
        = Ok {| _LaTeXMath.content := "\frac{" +:+ strip n +:+ "}{" +:+ strip d +:+ "}";
                _LaTeXMath.inline := inline |})
  /\ Fraction.__init__ (VStr "6/3") inline
     = Ok {| _LaTeXMath.content := "\frac{6}{3}"; _LaTeXMath.inline := inline |}
  /\ Fraction.__init__ (VStr " 6 / 3 ") inline
     = Ok {| _LaTeXMath.content := "\frac{6}{3}"; _LaTeXMath.inline := inline |}
  /\ Fraction.__init__ (VStr "6") inline = Raise ValueError.
Proof.
  assert (Hcases : (exists n d, split "/" s = [n; d]
                       /\ Fraction.__init__ (VStr s) inline
                          = Ok {| _LaTeXMath.content :=
                                    "\frac" +:+ "{" +:+ strip n +:+ "}" +:+ "{" +:+ strip d +:+ "}";
                                  _LaTeXMath.inline := inline |})
                   \/ (length (split "/" s) <> 2
                       /\ Fraction.__init__ (VStr s) inline = Raise ValueError)).
  { unfold Fraction.__init__. cbn [str].
    destruct (split "/" s) as [|n [|d [|x rest]]]; cbn [length];
      [right | right | left | right]; try (split; [lia | reflexivity]).
    exists n, d. split; reflexivity. }
  pose proof (split_length "/" s) as Hlen.
  repeat split.
  - destruct Hcases as [(n & d & Hs & Hr) | [Hne _]]; [rewrite Hr; discriminate | now intros _].
  - destruct Hcases as [(n & d & Hs & Hr) | [_ Hr]]; [| now intros _].
    rewrite Hs. cbn [length]. congruence.
  - destruct Hcases as [(n & d & Hs & Hr) | [Hne _]]; [| lia].
    rewrite Hr. intros [e He]. discriminate.
  - destruct Hcases as [(n & d & Hs & Hr) | [_ Hr]]; [| intros _; now exists ValueError].
    rewrite Hs in Hlen. cbn [length] in Hlen. lia.
  - intros n d -> Hn Hd.
    unfold Fraction.__init__. cbn [str].
    change (n +:+ "/" +:+ d) with (n +:+ String "/" d).
    rewrite (split_at_first "/" n d Hn), (split_no_separator "/" d Hd).
    reflexivity.
Qed.

Lemma C3_fraction_witness :
  Fraction.__init__ (VStr "1 /2") true
  = Ok {| _LaTeXMath.content := "\frac{" +:+ strip "1 " +:+ "}{" +:+ strip "2" +:+ "}";
          _LaTeXMath.inline := true |}.
Proof.
  apply (proj1 (proj2 (proj2 (C3_fraction "1 /2" true))) "1 " "2"); reflexivity.
Defined.

(** ** Integrals *)

Lemma integral_without_limits (integrand : value) (result : option value) (inline : bool) :
  Integral.__init__ integrand None None result inline
  = Ok {| _LaTeXMath.content := "\int {" +:+ str integrand +:+ "}" +:+ result_suffix result;
          _LaTeXMath.inline := inline |}.
Proof.
  unfold Integral.__init__, result_suffix.
  rewrite str_mod_braces. cbn [bind].
  destruct result as [r|]; [destruct (truth r) |];
    rewrite ?str_mod_braces; cbn [bind]; unfold _LaTeXMath.__init__; cbn [bind required];
    rewrite ?append_assoc, ?append_empty_r; reflexivity.
Qed.

Lemma integral_with_limits (integrand lower_limit upper_limit : value)
    (result : option value) (inline : bool) :
  Integral.__init__ integrand (Some lower_limit) (Some upper_limit) result inline
  = Ok {| _LaTeXMath.content :=
            "\int_{" +:+ str lower_limit +:+ "}^{" +:+ str upper_limit +:+ "} {"
            +:+ str integrand +:+ "}" +:+ result_suffix result;
          _LaTeXMath.inline := inline |}.
Proof.
  unfold Integral.__init__, result_suffix.
  rewrite !str_mod_braces. cbn [bind].
  destruct result as [r|]; [destruct (truth r) |];
    rewrite ?str_mod_braces; cbn [bind]; unfold _LaTeXMath.__init__; cbn [bind required];
    rewrite ?append_assoc, ?append_empty_r; reflexivity.
Qed.

Lemma integral_one_limit (integrand : value) (lower_limit upper_limit result : option value)
    (inline : bool) :
  one_limit_only lower_limit upper_limit = true ->
  Integral.__init__ integrand lower_limit upper_limit result inline
  = Raise (Exception Integral.BOUNDS_MESSAGE).
Proof.
  destruct lower_limit, upper_limit; try discriminate; intros _;
    unfold Integral.__init__; rewrite str_mod_braces; reflexivity.
Qed.

(** C4. [Integral] raises (the plain [Exception] that stands for the
    specification's InvalidBoundsError) exactly when one limit is given
    without the other; without limits the content is [\int {integrand}], with
    both it is [\int_{lower}^{upper} {integrand}], each followed by what the
    result adds.  The two examples of the specification close the statement. *)
Theorem C4_integral_bounds (integrand : value) (lower_limit upper_limit result : option value)
    (inline : bool) :
  (raises (Integral.__init__ integrand lower_limit upper_limit result inline)
   <-> one_limit_only lower_limit upper_limit = true)
  /\ (Integral.__init__ integrand lower_limit upper_limit result inline
      = Raise (Exception Integral.BOUNDS_MESSAGE)
      <-> one_limit_only lower_limit upper_limit = true)
  /\ Integral.__init__ integrand None None result inline
     = Ok {| _LaTeXMath.content := "\int {" +:+ str integrand +:+ "}" +:+ result_suffix result;
             _LaTeXMath.inline := inline |}
  /\ (forall l u : value,
        Integral.__init__ integrand (Some l) (Some u) result inline
        = Ok {| _LaTeXMath.content :=
                  "\int_{" +:+ str l +:+ "}^{" +:+ str u +:+ "} {"
                  +:+ str integrand +:+ "}" +:+ result_suffix result;
                _LaTeXMath.inline := inline |})
  /\ Integral.__init__ (VStr "x") (Some (VInt 0)) None None false
     = Raise (Exception Integral.BOUNDS_MESSAGE)
  /\ Integral.__init__ (VStr "x") (Some (VInt 0)) (Some (VInt 1)) (Some (VStr "5")) false
     = Ok {| _LaTeXMath.content := "\int_{0}^{1} {x} = {5}"; _LaTeXMath.inline := false |}.
Proof.
  repeat split; try reflexivity.
  - intros [e He]. destruct lower_limit as [l|], upper_limit as [u|]; try reflexivity.
    + rewrite integral_with_limits in He. discriminate.
    + rewrite integral_without_limits in He. discriminate.
  - intros H. eexists. now apply integral_one_limit.
  - intros He. destruct lower_limit as [l|], upper_limit as [u|]; try reflexivity.
    + rewrite integral_with_limits in He. discriminate.
    + rewrite integral_without_limits in He. discriminate.
  - apply integral_one_limit.
  - apply integral_without_limits.
  - intros l u. apply integral_with_limits.
Qed.

Lemma C4_integral_bounds_witness :
  raises (Integral.__init__ (VStr "x") None (Some (VInt 1)) None true).
Proof.
  apply (proj1 (C4_integral_bounds (VStr "x") None (Some (VInt 1)) None true)).
  reflexivity.
Defined.

(** A result that is true in a condition is rendered after the integral. *)
Lemma integral_true_result (integrand : value) (limits : option (value * value))
    (r : value) (inline : bool) :
  truth r = true ->
  exists body,
    Integral.__init__ integrand (fst <$> limits) (snd <$> limits) (Some r) inline
    = Ok {| _LaTeXMath.content := body +:+ " = {" +:+ str r +:+ "}";
            _LaTeXMath.inline := inline |}.
Proof.
  intros Hr. destruct limits as [[l u]|]; cbn [fmap option_fmap option_map fst snd].
  - rewrite integral_with_limits. unfold result_suffix. rewrite Hr.
    exists ("\int_{" +:+ str l +:+ "}^{" +:+ str u +:+ "} {" +:+ str integrand +:+ "}").
    now rewrite !append_assoc.
  - rewrite integral_without_limits. unfold result_suffix. rewrite Hr.
    exists ("\int {" +:+ str integrand +:+ "}").
    now rewrite !append_assoc.
Qed.

(** C6. A result is rendered only when it is true in a condition: [Integral]
    tests [if result:], so a result that is given but false there (the number
    0, the empty string) is left out, and the content is the one of an
    integral without result.  For [Integral("x", 0, 1, result=0)] the content
    is [\int_{0}^{1} {x}], with no [= {0}] at its end. *)
Theorem C6_false_result_left_out (integrand : value) (lower_limit upper_limit : option value)
    (r : value) (inline : bool) :
  truth r = false ->
  Integral.__init__ integrand lower_limit upper_limit (Some r) inline
  = Integral.__init__ integrand lower_limit upper_limit None inline
  /\ Integral.__init__ (VStr "x") (Some (VInt 0)) (Some (VInt 1)) (Some (VInt 0)) false
     = Ok {| _LaTeXMath.content := "\int_{0}^{1} {x}"; _LaTeXMath.inline := false |}.
Proof.
  intros Hr. split; [| reflexivity].
  unfold Integral.__init__. now rewrite Hr.
Qed.

Lemma C6_false_result_left_out_witness :
  truth (VInt 0) = false
  /\ Integral.__init__ (VStr "x") (Some (VInt 0)) (Some (VInt 1)) (Some (VInt 0)) false
     = Integral.__init__ (VStr "x") (Some (VInt 0)) (Some (VInt 1)) None false.
Proof.
  split; [reflexivity |].
  apply (C6_false_result_left_out (VStr "x") (Some (VInt 0)) (Some (VInt 1)) (VInt 0) false).
  reflexivity.
Defined.

(** * The document *)

Lemma title_line (title : string) :
  str_mod ("\title{%s}" +:+ nl) title = Ok ("\title{" +:+ title +:+ "}" +:+ nl).
Proof. reflexivity. Qed.

Lemma author_line (author : string) :
  str_mod ("\author{%s}" +:+ nl) author = Ok ("\author{" +:+ author +:+ "}" +:+ nl).
Proof. reflexivity. Qed.

Lemma date_line (date : string) :
  str_mod ("\date{%s}" +:+ nl) date = Ok ("\date{" +:+ date +:+ "}" +:+ nl).
Proof. reflexivity. Qed.

(** The format of the author line with thanks holds two [%s]; [%] is applied
    to the author alone first, which leaves the second one without
    argument. *)
Lemma author_thanks_line (author : string) :
  str_mod ("\author{%s\thanks{%s}}" +:+ nl) author = Raise TypeError.
Proof. reflexivity. Qed.

(** A code point other than the percent sign is copied. *)
Lemma format_from_literal (c : ascii) (arg : option string) (fmt : string) :
  Ascii.eqb c "%" = false ->
  format_from Literal arg (String c fmt)
  = bind (format_from Literal arg fmt) (λ rest, Ok (String c rest)).
Proof. intros Hc. cbn [format_from step]. rewrite Hc. reflexivity. Qed.

Lemma format_from_prefix (prefix : string) (arg : option string) (fmt : string) :
  count "%" prefix = 0 ->
  format_from Literal arg (prefix +:+ fmt)
  = bind (format_from Literal arg fmt) (λ rest, Ok (prefix +:+ rest)).
Proof.
  induction prefix as [|c prefix IH].
  - intros _. change (EmptyString +:+ fmt) with fmt.
    now destruct (format_from Literal arg fmt).
  - cbn [count]. destruct (Ascii.eqb c "%") eqn:Hc; [discriminate |]. intros Hp.
    change (String c prefix +:+ fmt) with (String c (prefix +:+ fmt)).
    rewrite (format_from_literal _ _ _ Hc), (IH Hp).
    now destruct (format_from Literal arg fmt).
Qed.

Lemma doc_class_header (self : _LaTeXDocument.t) (line : string) :
  _LaTeXDocument.doc_class self = Ok line -> is_header_line line = true.
Proof.
  unfold _LaTeXDocument.doc_class, str_mod.
  match goal with
  | |- format_from _ _ (_ +:+ ?rest) = _ -> _ =>
      change ("\documentclass[" +:+ rest) with ("\d" +:+ "ocumentclass[" +:+ rest);
      generalize ("ocumentclass[" +:+ rest)
  end.
  intros fmt. rewrite format_from_prefix by reflexivity.
  destruct (format_from Literal _ fmt) as [r|e]; cbn [bind]; [| discriminate].
  intros [= <-]. reflexivity.
Qed.

(** The lines of the preamble, when [start_new_document] returns. *)
Lemma start_new_document_shape (self : _LaTeXDocument.t) (lines : list string) :
  _LaTeXDocument.start_new_document self = Ok lines ->
  exists (first : string) (header : list string),
    lines = first :: _LaTeXDocument.INPUTENC_PACKAGE :: option_packages self
            ++ nl :: header
            ++ BEGIN_DOCUMENT
               :: (if _LaTeXDocument.make_title self then ["\maketitle" +:+ nl] else [])
            ++ ["\frenchspacing" +:+ nl +:+ nl]
    /\ is_header_line first = true
    /\ Forall (λ l, is_header_line l = true) header.
Proof.
  unfold _LaTeXDocument.start_new_document, option_packages.
  destruct (_LaTeXDocument.doc_class self) as [first|e] eqn:Hfirst; cbn [bind]; [| discriminate].
  apply doc_class_header in Hfirst.
  destruct (truthy (_LaTeXDocument.title self)) as [title|];
    rewrite ?title_line; cbn [bind];
    (destruct (truthy (_LaTeXDocument.author self)) as [author|];
     [destruct (truthy (_LaTeXDocument.thanks self)) as [thanks|];
      [rewrite author_thanks_line; cbn [bind]; discriminate | rewrite author_line] |]);
    cbn [bind];
    (destruct (truthy (_LaTeXDocument.date self)) as [date|]; rewrite ?date_line; cbn [bind]);
    intros [= <-]; exists first;
    [ exists ["\title{" +:+ title +:+ "}" +:+ nl; "\author{" +:+ author +:+ "}" +:+ nl;
              "\date{" +:+ date +:+ "}" +:+ nl]
    | exists ["\title{" +:+ title +:+ "}" +:+ nl; "\author{" +:+ author +:+ "}" +:+ nl]
    | exists ["\title{" +:+ title +:+ "}" +:+ nl; "\date{" +:+ date +:+ "}" +:+ nl]
    | exists ["\title{" +:+ title +:+ "}" +:+ nl]
    | exists ["\author{" +:+ author +:+ "}" +:+ nl; "\date{" +:+ date +:+ "}" +:+ nl]
    | exists ["\author{" +:+ author +:+ "}" +:+ nl]
    | exists ["\date{" +:+ date +:+ "}" +:+ nl]
    | exists [] ];
    (split; [| split; [exact Hfirst | repeat constructor]]);
    destruct (_LaTeXDocument.has "abnt" self), (_LaTeXDocument.has "figures" self),
      (_LaTeXDocument.has "float" self), (_LaTeXDocument.has "indentfirst" self),
      (_LaTeXDocument.make_title self); reflexivity.
Qed.

(** The decimal form of an integer holds no percent sign. *)
Lemma str_of_uint_no_percent (d : Decimal.uint) :
  count "%" (NilEmpty.string_of_uint d) = 0.
Proof. induction d; simpl; auto. Qed.

Lemma str_of_int_no_percent (z : Z) : count "%" (str_of_int z) = 0.
Proof.
  assert (Hu : forall d, count "%" (NilZero.string_of_uint d) = 0).
  { intros d. unfold NilZero.string_of_uint.
    destruct d; try reflexivity; apply str_of_uint_no_percent. }
  unfold str_of_int, NilZero.string_of_int.
  destruct (Z.to_int z) as [d|d]; [apply Hu |].
  cbn [count]. now rewrite Hu.
Qed.

(** The first line is produced whenever the paper type holds no percent
    sign. *)
Lemma doc_class_returns (self : _LaTeXDocument.t) :
  count "%" (_LaTeXDocument.paper_type self) = 0 ->
  _LaTeXDocument.doc_class self
  = Ok ("\documentclass[" +:+ str_of_int (_LaTeXDocument.font_size self) +:+ "pt, "
        +:+ _LaTeXDocument.paper_type self +:+ "]{" +:+ _LaTeXDocument.document_type self
        +:+ "}" +:+ nl +:+ nl).
Proof.
  intros Hp. unfold _LaTeXDocument.doc_class, str_mod.
  set (prefix := "\documentclass[" +:+ str_of_int (_LaTeXDocument.font_size self) +:+ "pt, "
                 +:+ _LaTeXDocument.paper_type self).
  replace (format_from Literal (Some (_LaTeXDocument.document_type self)) _)
    with (format_from Literal (Some (_LaTeXDocument.document_type self))
            (prefix +:+ "]{%s}" +:+ nl +:+ nl))
    by (unfold prefix; now rewrite !append_assoc).
  rewrite format_from_prefix.
  - change (Ok (prefix +:+ "]{" +:+ _LaTeXDocument.document_type self +:+ "}" +:+ nl +:+ nl)
            = Ok ("\documentclass[" +:+ str_of_int (_LaTeXDocument.font_size self) +:+ "pt, "
                  +:+ _LaTeXDocument.paper_type self +:+ "]{"
                  +:+ _LaTeXDocument.document_type self +:+ "}" +:+ nl +:+ nl)).
    unfold prefix. now rewrite !append_assoc.
  - unfold prefix. rewrite !count_append, Hp, str_of_int_no_percent. reflexivity.
Qed.

(** The preamble is produced whenever the first line is and the author comes
    without thanks. *)
Lemma start_new_document_returns (self : _LaTeXDocument.t) :
  returns (_LaTeXDocument.doc_class self) ->
  truthy (_LaTeXDocument.author self) = None \/ truthy (_LaTeXDocument.thanks self) = None ->
  returns (_LaTeXDocument.start_new_document self).
Proof.
  intros [first Hfirst] Hauthor.
  unfold _LaTeXDocument.start_new_document. rewrite Hfirst. cbn [bind].
  destruct (truthy (_LaTeXDocument.title self)); rewrite ?title_line; cbn [bind];
    (destruct (truthy (_LaTeXDocument.author self));
     [destruct (truthy (_LaTeXDocument.thanks self));
      [destruct Hauthor; discriminate | rewrite author_line] |]);
    cbn [bind];
    (destruct (truthy (_LaTeXDocument.date self)); rewrite ?date_line; cbn [bind]);
    eexists; reflexivity.
Qed.

(** The paper type is read as part of a format: a percent sign in it starts
    a conversion, here the unsupported [%p]. *)
Lemma paper_type_percent_raises :
  _LaTeXDocument.start_new_document article_percent_paper = Raise ValueError.
Proof. vm_compute. reflexivity. Qed.

(** C2. [start_new_document] does not return for every document: with an
    author and thanks that are both non-empty it raises.  The author line is
    built with [fmt % self.author % self.thanks], which applies [%] to the
    author alone while the format holds two [%s], so the call raises
    [TypeError] as soon as the first line has been produced; no author line
    with nested thanks is ever emitted. *)
Theorem C2_author_with_thanks_raises (self : _LaTeXDocument.t) (author thanks : string) :
  truthy (_LaTeXDocument.author self) = Some author ->
  truthy (_LaTeXDocument.thanks self) = Some thanks ->
  raises (_LaTeXDocument.start_new_document self)
  /\ (returns (_LaTeXDocument.doc_class self) ->
      _LaTeXDocument.start_new_document self = Raise TypeError).
Proof.
  intros Ha Ht.
  assert (Hcases : forall first, _LaTeXDocument.doc_class self = Ok first ->
                     _LaTeXDocument.start_new_document self = Raise TypeError).
  { intros first Hfirst. unfold _LaTeXDocument.start_new_document.
    rewrite Hfirst, Ha, Ht, author_thanks_line. cbn [bind].
    destruct (truthy (_LaTeXDocument.title self)); rewrite ?title_line; reflexivity. }
  split.
  - destruct (_LaTeXDocument.doc_class self) as [first|e] eqn:Hfirst.
    + exists TypeError. now apply (Hcases first).
    + exists e. unfold _LaTeXDocument.start_new_document. now rewrite Hfirst.
  - intros [first Hfirst]. now apply (Hcases first).
Qed.

Lemma C2_author_with_thanks_raises_witness :
  _LaTeXDocument.start_new_document article_with_thanks = Raise TypeError.
Proof.
  apply (C2_author_with_thanks_raises article_with_thanks "Ana" "CNPq");
    [reflexivity | reflexivity | eexists; reflexivity].
Defined.

(** ** Option flags and package lines *)

Ltac decide_by_computation :=
  match goal with
  | |- ?P => apply (bool_decide_unpack P); vm_compute; exact I
  end.

Lemma has_true (flag : string) (self : _LaTeXDocument.t) :
  _LaTeXDocument.has flag self = true <-> flag ∈ _LaTeXDocument.opts self.
Proof. unfold _LaTeXDocument.has. apply bool_decide_eq_true. Qed.

Lemma occurrences_app (line : string) (l1 l2 : list string) :
  occurrences line (l1 ++ l2) = occurrences line l1 + occurrences line l2.
Proof. unfold occurrences. now rewrite filter_app, length_app. Qed.

Lemma occurrences_cons (line l : string) (lines : list string) :
  occurrences line (l :: lines)
  = (if decide (l = line) then 1 else 0) + occurrences line lines.
Proof. unfold occurrences. rewrite filter_cons. now destruct (decide (l = line)). Qed.

Lemma occurrences_none (line : string) (lines : list string) :
  Forall (λ l, l <> line) lines -> occurrences line lines = 0.
Proof.
  induction 1 as [|l lines Hl _ IH]; [reflexivity |].
  rewrite occurrences_cons, IH. now destruct (decide (l = line)).
Qed.

Lemma filter_none {A : Type} (P : A -> Prop) `{!∀ x, Decision (P x)} (l : list A) :
  Forall (λ x, ¬ P x) l -> filter P l = [].
Proof.
  induction 1 as [|x l Hx _ IH]; [reflexivity |].
  rewrite filter_cons, IH. now destruct (decide (P x)).
Qed.

Lemma filter_all {A : Type} (P : A -> Prop) `{!∀ x, Decision (P x)} (l : list A) :
  Forall P l -> filter P l = l.
Proof.
  induction 1 as [|x l Hx _ IH]; [reflexivity |].
  rewrite filter_cons, IH. now destruct (decide (P x)).
Qed.

(** A header line is neither a marker nor a package line. *)
Lemma header_line_not (line other : string) :
  is_header_line other = false -> is_header_line line = true -> line <> other.
Proof. intros Ho Hl ->. congruence. Qed.

Lemma header_lines_not (other : string) (header : list string) :
  is_header_line other = false ->
  Forall (λ l, is_header_line l = true) header -> Forall (λ l, l <> other) header.
Proof.
  intros Ho Hheader. eapply Forall_impl; [exact Hheader |].
  intros l. now apply header_line_not.
Qed.

Lemma header_line_no_package (line : string) :
  is_header_line line = true -> ¬ is_option_package line.
Proof.
  intros Hl Hin. unfold is_option_package, CANONICAL_PACKAGES in Hin.
  rewrite !elem_of_cons in Hin.
  destruct Hin as [-> | [-> | [-> | [-> | Hin]]]]; try discriminate Hl.
  now apply elem_of_nil in Hin.
Qed.

Lemma option_packages_canonical (self : _LaTeXDocument.t) :
  Forall is_option_package (option_packages self)
  /\ option_packages self `sublist_of` CANONICAL_PACKAGES.
Proof.
  unfold option_packages, is_option_package.
  destruct (_LaTeXDocument.has "abnt" self), (_LaTeXDocument.has "figures" self),
    (_LaTeXDocument.has "float" self), (_LaTeXDocument.has "indentfirst" self);
    (split; [decide_by_computation |]); cbn [app]; unfold CANONICAL_PACKAGES;
    repeat first [apply sublist_nil | apply sublist_skip | apply sublist_cons].
Qed.

(** The package lines of a preamble are the ones of [option_packages], and
    the opening marker is one of its lines, once. *)
Lemma preamble_packages (self : _LaTeXDocument.t) (lines : list string) :
  _LaTeXDocument.start_new_document self = Ok lines ->
  filter is_option_package lines = option_packages self
  /\ occurrences BEGIN_DOCUMENT lines = 1
  /\ occurrences END_DOCUMENT lines = 0.
Proof.
  intros (first & header & -> & Hfirst & Hheader)%start_new_document_shape.
  destruct (option_packages_canonical self) as [Hall _].
  split; [| split].
  - rewrite !filter_cons, filter_app, (filter_all _ _ Hall).
    destruct (decide (is_option_package first)) as [Hin|_];
      [now apply header_line_no_package in Hin |].
    destruct (decide (is_option_package _LaTeXDocument.INPUTENC_PACKAGE)) as [Hin|_];
      [exfalso; revert Hin; decide_by_computation |].
    rewrite filter_none; [apply app_nil_r |].
    constructor; [decide_by_computation |].
    apply Forall_app. split.
    + eapply Forall_impl; [exact Hheader |]. intros l. apply header_line_no_package.
    + destruct (_LaTeXDocument.make_title self); decide_by_computation.
  - rewrite !occurrences_cons, occurrences_app, occurrences_cons, occurrences_app,
      occurrences_cons.
    rewrite (occurrences_none _ (option_packages self)),
      (occurrences_none _ header), (occurrences_none _ (_ ++ _)).
    + destruct (decide (first = BEGIN_DOCUMENT)) as [->|_]; [discriminate Hfirst |].
      reflexivity.
    + destruct (_LaTeXDocument.make_title self); decide_by_computation.
    + now apply header_lines_not.
    + eapply Forall_impl; [exact Hall |]. intros l Hl ->. revert Hl. decide_by_computation.
  - apply occurrences_none.
    constructor; [now apply header_line_not |].
    constructor; [decide_by_computation |].
    apply Forall_app. split.
    { eapply Forall_impl; [exact Hall |]. intros l Hl ->. revert Hl. decide_by_computation. }
    constructor; [decide_by_computation |].
    apply Forall_app. split; [now apply header_lines_not |].
    destruct (_LaTeXDocument.make_title self); decide_by_computation.
Qed.

Lemma option_packages_flags (self : _LaTeXDocument.t) :
  packages_follow_flags self (option_packages self).
Proof.
  unfold packages_follow_flags, option_packages.
  rewrite <- !has_true.
  destruct (_LaTeXDocument.has "abnt" self), (_LaTeXDocument.has "figures" self),
    (_LaTeXDocument.has "float" self), (_LaTeXDocument.has "indentfirst" self);
    cbn [app]; decide_by_computation.
Qed.

(** C5 (amended). Whenever [start_new_document] returns, its lines hold the
    opening marker exactly once, and the package lines among them are, in
    this order, the citation package if [abnt] is in the option set, the
    graphics package if [figures] is, the float package if [figures] and
    [float] both are, and the indentation package if [indentfirst] is. *)
Theorem C5_preamble_packages (self : _LaTeXDocument.t) (lines : list string) :
  _LaTeXDocument.start_new_document self = Ok lines ->
  occurrences BEGIN_DOCUMENT lines = 1
  /\ packages_follow_flags self lines
  /\ filter is_option_package lines = option_packages self
  /\ filter is_option_package lines `sublist_of` CANONICAL_PACKAGES.
Proof.
  intros Hlines.
  destruct (preamble_packages self lines Hlines) as (Hfilter & Hbegin & _).
  destruct (option_packages_canonical self) as [_ Hsub].
  split; [exact Hbegin |]. split; [| split; [exact Hfilter | now rewrite Hfilter]].
  assert (Hin : forall line, is_option_package line ->
                  line ∈ lines <-> line ∈ option_packages self).
  { intros line Hline. rewrite <- Hfilter, list_elem_of_filter. tauto. }
  pose proof (option_packages_flags self) as (Ha & Hg & Hf & Hi).
  unfold packages_follow_flags.
  rewrite !Hin by decide_by_computation. tauto.
Qed.

Lemma float_only_preamble :
  _LaTeXDocument.start_new_document float_only = Ok float_only_lines.
Proof. vm_compute. reflexivity. Qed.

Lemma C5_preamble_packages_witness :
  occurrences BEGIN_DOCUMENT float_only_lines = 1
  /\ packages_follow_flags float_only float_only_lines
  /\ filter is_option_package float_only_lines = option_packages float_only
  /\ filter is_option_package float_only_lines `sublist_of` CANONICAL_PACKAGES.
Proof.
  apply (C5_preamble_packages float_only float_only_lines). vm_compute. reflexivity.
Defined.

(** C5 as the specification states it fails for the flag [float] alone: the
    flag is in the option set, the preamble is produced, and the float
    package is not among its lines. *)
Lemma C5_counterexample :
  "float" ∈ _LaTeXDocument.opts float_only
  /\ _LaTeXDocument.start_new_document float_only = Ok float_only_lines
  /\ (_LaTeXDocument.FLOAT_PACKAGE ∉ float_only_lines)
  /\ (¬ packages_follow_own_flag float_only float_only_lines).
Proof.
  assert (Hflag : "float" ∈ _LaTeXDocument.opts float_only) by decide_by_computation.
  assert (Hnot : _LaTeXDocument.FLOAT_PACKAGE ∉ float_only_lines) by decide_by_computation.
  split; [exact Hflag |]. split; [exact float_only_preamble |]. split; [exact Hnot |].
  intros (_ & _ & Hfloat & _). apply Hnot, Hfloat, Hflag.
Qed.

(** C10. The constructor stores the lower-case form of every flag it is
    given, so two lists of flags that differ in the case of letters only give
    the same document, the same preamble (or the same exception), and the
    same builder. *)
Theorem C10_flags_case_insensitive (path document_type : string) (font_size : Z)
    (paper_type : string) (title author thanks date : option string) (make_title : bool)
    (opts1 opts2 : list string) :
  Forall2 same_up_to_case opts1 opts2 ->
  (forall flag : string,
     flag ∈ _LaTeXDocument.opts
              (_LaTeXDocument.__init__ path document_type font_size paper_type title author
                 thanks date make_title opts1)
     <-> exists given, given ∈ opts1 /\ flag = lower given)
  /\ _LaTeXDocument.__init__ path document_type font_size paper_type title author thanks date
       make_title opts1
     = _LaTeXDocument.__init__ path document_type font_size paper_type title author thanks
         date make_title opts2
  /\ _LaTeXDocument.start_new_document
       (_LaTeXDocument.__init__ path document_type font_size paper_type title author thanks
          date make_title opts1)
     = _LaTeXDocument.start_new_document
         (_LaTeXDocument.__init__ path document_type font_size paper_type title author thanks
            date make_title opts2)
  /\ PyTeX.__init__ path document_type font_size paper_type title author thanks date
       make_title opts1
     = PyTeX.__init__ path document_type font_size paper_type title author thanks date
         make_title opts2.
Proof.
  intros Hsame.
  assert (Hlower : lower <$> opts1 = lower <$> opts2).
  { induction Hsame as [|a b l1 l2 Hab _ IH]; [reflexivity |].
    cbn [fmap list_fmap]. unfold same_up_to_case in Hab. now rewrite Hab, IH. }
  split.
  - intros flag. cbn [_LaTeXDocument.__init__ _LaTeXDocument.opts].
    rewrite elem_of_list_to_set, list_elem_of_fmap. 
    split; intros (given & H1 & H2); exists given; auto.
  - unfold PyTeX.__init__, _LaTeXDocument.__init__. now rewrite Hlower.
Qed.

Lemma C10_flags_case_insensitive_witness :
  _LaTeXDocument.start_new_document
    (_LaTeXDocument.__init__ "main.tex" "article" 12 "a4paper" None None None None false
       ["ABNT"])
  = _LaTeXDocument.start_new_document
      (_LaTeXDocument.__init__ "main.tex" "article" 12 "a4paper" None None None None false
         ["abnt"]).
Proof.
  apply (C10_flags_case_insensitive "main.tex" "article" 12 "a4paper" None None None None
           false ["ABNT"] ["abnt"]).
  repeat constructor.
Defined.

(** * The builder *)

Lemma occurrences_zero (line : string) (lines : list string) :
  occurrences line lines = 0 -> Forall (λ l, l <> line) lines.
Proof.
  induction lines as [|l lines IH]; [constructor |].
  rewrite occurrences_cons. destruct (decide (l = line)); [discriminate |].
  intros H. constructor; [assumption | now apply IH].
Qed.

Lemma without_end_body (body : list string) :
  Forall (λ l, l <> END_DOCUMENT) body -> without_end body = body.
Proof.
  intros Hbody. unfold without_end.
  destruct (last body) as [final|] eqn:Hlast; [| reflexivity].
  apply last_Some_elem_of in Hlast.
  rewrite Forall_forall in Hbody. specialize (Hbody final Hlast).
  apply String.eqb_neq in Hbody. now rewrite Hbody.
Qed.

Lemma without_end_closed (body : list string) :
  without_end (body ++ [END_DOCUMENT]) = body.
Proof.
  unfold without_end. rewrite last_snoc, String.eqb_refl. apply removelast_last.
Qed.

Lemma without_end_well_formed (lines : list string) :
  well_formed lines ->
  without_end lines <> [] /\ Forall (λ l, l <> END_DOCUMENT) (without_end lines)
  /\ (lines = without_end lines \/ lines = without_end lines ++ [END_DOCUMENT]).
Proof.
  intros (body & Hne & Hbody & [-> | ->]).
  - rewrite (without_end_body body Hbody). auto.
  - rewrite without_end_closed. auto.
Qed.

(** An entry ends with a newline, which the closing marker does not. *)
Lemma ends_with_newline_not_end (s : string) : s +:+ nl <> END_DOCUMENT.
Proof.
  intros H. pose proof (endswith_append s nl) as Hs. rewrite H in Hs. discriminate Hs.
Qed.

Lemma entry_not_end (content : content_arg) : entry content <> END_DOCUMENT.
Proof. apply ends_with_newline_not_end. Qed.

Lemma remove_end_content (self : PyTeX.t) :
  PyTeX._content self <> [] ->
  PyTeX._remove_end_content self
  = (Ok tt, {| PyTeX.document := PyTeX.document self;
               PyTeX._content := without_end (PyTeX._content self) |}).
Proof.
  intros Hne. unfold PyTeX._remove_end_content, without_end.
  destruct (last (PyTeX._content self)) as [final|] eqn:Hlast.
  - destruct (String.eqb final END_DOCUMENT); [reflexivity | now destruct self].
  - now apply last_None in Hlast.
Qed.

(** What [append_content] does to a builder with at least one line. *)
Lemma append_content_spec (self : PyTeX.t) (content : content_arg) :
  PyTeX._content self <> [] ->
  PyTeX.append_content self content
  = if is_text_run content
    then (Raise AttributeError,
          {| PyTeX.document := PyTeX.document self;
             PyTeX._content := without_end (PyTeX._content self) |})
    else (Ok tt,
          {| PyTeX.document := PyTeX.document self;
             PyTeX._content := without_end (PyTeX._content self) ++ [entry content] |}).
Proof.
  intros Hne. unfold PyTeX.append_content. rewrite (remove_end_content self Hne).
  destruct content as [s | m | t]; cbn [is_text_run PyTeX.document PyTeX._content];
    [reflexivity | | reflexivity].
  unfold entry, markup. destruct (_LaTeXMath.inline m); rewrite ?append_assoc; reflexivity.
Qed.

(** What [write_document] does to a builder with at least one line. *)
Lemma write_document_spec (self : PyTeX.t) (fs : files) :
  PyTeX._content self <> [] ->
  let lines := without_end (PyTeX._content self) ++ [END_DOCUMENT] in
  PyTeX.write_document self fs
  = (Ok (<[_LaTeXDocument.path (PyTeX.document self) := String.concat EmptyString lines]> fs),
     {| PyTeX.document := PyTeX.document self; PyTeX._content := lines |}).
Proof.
  intros Hne lines. subst lines.
  unfold PyTeX.write_document, _LaTeXDocument.write_document, without_end.
  destruct (last (PyTeX._content self)) as [final|] eqn:Hlast.
  - destruct (String.eqb_spec final END_DOCUMENT) as [-> | Hfinal]; [| reflexivity].
    apply last_Some in Hlast as [body Hbody]. rewrite Hbody, removelast_last. reflexivity.
  - now apply last_None in Hlast.
Qed.

Lemma well_formed_nonempty (lines : list string) : well_formed lines -> lines <> [].
Proof.
  intros (body & Hne & _ & [-> | ->]); [assumption |]. now destruct body.
Qed.

Lemma init_well_formed path document_type font_size paper_type title author thanks date
    make_title opts (self : PyTeX.t) :
  PyTeX.__init__ path document_type font_size paper_type title author thanks date
    make_title opts = Ok self ->
  well_formed (PyTeX._content self)
  /\ occurrences BEGIN_DOCUMENT (PyTeX._content self) = 1
  /\ occurrences END_DOCUMENT (PyTeX._content self) = 0.
Proof.
  unfold PyTeX.__init__.
  destruct (_LaTeXDocument.start_new_document _) as [lines|e] eqn:Hlines; cbn [bind];
    [| discriminate].
  intros [= <-]. cbn [PyTeX._content].
  destruct (preamble_packages _ lines Hlines) as (_ & Hbegin & Hend).
  split; [| auto].
  exists lines. split; [| split; [now apply occurrences_zero | now left]].
  intros ->. discriminate Hbegin.
Qed.

(** Every state of a builder is well formed. *)
Lemma reachable_well_formed (self : PyTeX.t) :
  reachable self -> well_formed (PyTeX._content self).
Proof.
  induction 1 as [? ? ? ? ? ? ? ? ? ? self Hinit | self content _ IH | self fs _ IH].
  - now apply init_well_formed in Hinit.
  - pose proof (well_formed_nonempty _ IH) as Hne.
    apply without_end_well_formed in IH as (Hbody & Hall & _).
    rewrite (append_content_spec self content Hne).
    destruct (is_text_run content); cbn [snd PyTeX._content].
    + exists (without_end (PyTeX._content self)). auto.
    + exists (without_end (PyTeX._content self) ++ [entry content]).
      split; [now destruct (without_end (PyTeX._content self)) |].
      split; [| now left].
      apply Forall_app. split; [assumption |].
      constructor; [apply entry_not_end | constructor].
  - pose proof (well_formed_nonempty _ IH) as Hne.
    apply without_end_well_formed in IH as (Hbody & Hall & _).
    rewrite (write_document_spec self fs Hne). cbn [snd PyTeX._content].
    exists (without_end (PyTeX._content self)). auto.
Qed.

(** Writing again changes nothing but the file. *)
Lemma write_repeatedly_spec (n : nat) (self : PyTeX.t) (fs : files) :
  PyTeX._content self <> [] ->
  let lines := without_end (PyTeX._content self) ++ [END_DOCUMENT] in
  write_repeatedly (S n) self fs
  = (Ok (<[_LaTeXDocument.path (PyTeX.document self) := String.concat EmptyString lines]> fs),
     {| PyTeX.document := PyTeX.document self; PyTeX._content := lines |}).
Proof.
  intros Hne lines. subst lines. revert self fs Hne.
  induction n as [|n IH]; intros self fs Hne.
  - cbn [write_repeatedly]. now rewrite (write_document_spec self fs Hne).
  - change (write_repeatedly (S (S n)) self fs)
      with (match PyTeX.write_document self fs with
            | (Ok fs', self') => write_repeatedly (S n) self' fs'
            | (Raise e, self') => (Raise e, self')
            end).
    rewrite (write_document_spec self fs Hne). cbn zeta.
    rewrite IH by (cbn; now destruct (without_end (PyTeX._content self))).
    cbn [PyTeX.document PyTeX._content].
    now rewrite without_end_closed, insert_insert_eq.
Qed.

(** C7. In every state of a builder, [write_document] returns, and it adds
    the closing marker exactly when the last line is not the closing marker.
    After one or more calls in a row the line sequence is the same: it ends
    with the closing marker, holds it exactly once, and is what the file
    holds.  For a builder that was just constructed the written lines are the
    preamble, with its single opening marker, followed by the closing
    marker. *)
Theorem C7_write_closes_once (self : PyTeX.t) :
  reachable self ->
  (forall fs : files,
     exists fs',
       PyTeX.write_document self fs
       = (Ok fs',
          {| PyTeX.document := PyTeX.document self;
             PyTeX._content :=
               if bool_decide (last (PyTeX._content self) = Some END_DOCUMENT)
               then PyTeX._content self
               else PyTeX._content self ++ [END_DOCUMENT] |}))
  /\ (forall (n : nat) (fs : files),
        exists fs' self',
          write_repeatedly (S n) self fs = (Ok fs', self')
          /\ self' = snd (PyTeX.write_document self fs)
          /\ last (PyTeX._content self') = Some END_DOCUMENT
          /\ occurrences END_DOCUMENT (PyTeX._content self') = 1
          /\ fs' !! _LaTeXDocument.path (PyTeX.document self)
             = Some (String.concat EmptyString (PyTeX._content self')))
  /\ (forall path document_type font_size paper_type title author thanks date make_title opts,
        PyTeX.__init__ path document_type font_size paper_type title author thanks date
          make_title opts = Ok self ->
        forall fs : files,
          let written := PyTeX._content (snd (PyTeX.write_document self fs)) in
          written = PyTeX._content self ++ [END_DOCUMENT]
          /\ occurrences BEGIN_DOCUMENT written = 1
          /\ occurrences END_DOCUMENT written = 1).
Proof.
  intros Hreach.
  pose proof (reachable_well_formed self Hreach) as Hwf.
  pose proof (well_formed_nonempty _ Hwf) as Hne.
  pose proof (without_end_well_formed _ Hwf) as (Hbody & Hall & Hlines).
  split; [| split].
  - intros fs. eexists. rewrite (write_document_spec self fs Hne). cbn zeta.
    f_equal. f_equal.
    destruct Hlines as [Hopen | Hclosed].
    + rewrite <- Hopen. rewrite bool_decide_eq_false_2; [reflexivity |].
      intros Hlast%last_Some_elem_of. rewrite Hopen in Hlast.
      rewrite Forall_forall in Hall. now apply (Hall _ Hlast).
    + rewrite <- Hclosed. rewrite bool_decide_eq_true_2; [reflexivity |].
      rewrite Hclosed. apply last_snoc.
  - intros n fs. eexists _, _.
    rewrite (write_repeatedly_spec n self fs Hne), (write_document_spec self fs Hne).
    cbn zeta. cbn [snd PyTeX._content PyTeX.document].
    split; [reflexivity |]. split; [reflexivity |].
    cbn [PyTeX._content].
    split; [apply last_snoc |].
    split; [| apply lookup_insert_eq].
    rewrite occurrences_app, (occurrences_none _ _ Hall). reflexivity.
  - intros path document_type font_size paper_type title author thanks date make_title opts
      Hinit fs.
    apply init_well_formed in Hinit as (_ & Hbegin & Hend).
    rewrite (write_document_spec self fs Hne). cbn zeta. cbn [snd PyTeX._content].
    rewrite (without_end_body _ (occurrences_zero _ _ Hend)).
    split; [reflexivity |].
    rewrite !occurrences_app, Hbegin, Hend. split; reflexivity.
Qed.

(** C8 (amended). For a builder with at least one line, and content that is
    a math fragment or a string, [append_content] returns and the new line
    sequence is the old one without a closing marker at its end, followed by
    one entry: the markup (a math fragment inside [math] when it is inline,
    inside [equation] otherwise; a string as it is), a newline if the markup
    does not end with one, and one more newline.  The entry is the last line:
    the closing marker is not put back.  Appending the same content again
    adds the same entry a second time. *)
Theorem C8_append_content (self : PyTeX.t) (content : content_arg) :
  PyTeX._content self <> [] ->
  is_text_run content = false ->
  let appended :=
    {| PyTeX.document := PyTeX.document self;
       PyTeX._content := without_end (PyTeX._content self) ++ [entry content] |} in
  PyTeX.append_content self content = (Ok tt, appended)
  /\ last (PyTeX._content appended) = Some (entry content)
  /\ entry content <> END_DOCUMENT
  /\ PyTeX.append_content appended content
     = (Ok tt,
        {| PyTeX.document := PyTeX.document self;
           PyTeX._content :=
             without_end (PyTeX._content self) ++ [entry content; entry content] |}).
Proof.
  intros Hne Htext appended. subst appended.
  split; [rewrite (append_content_spec self content Hne), Htext; reflexivity |].
  split; [apply last_snoc |].
  split; [apply entry_not_end |].
  rewrite append_content_spec, Htext; cbn [PyTeX.document PyTeX._content].
  - unfold without_end at 1. rewrite last_snoc.
    pose proof (entry_not_end content) as Hentry. apply String.eqb_neq in Hentry.
    rewrite Hentry, <- app_assoc. reflexivity.
  - now destruct (without_end (PyTeX._content self)).
Qed.

Lemma plain_article_init :
  PyTeX.__init__ "main.tex" "article" 12 "a4paper" None None None None false []
  = Ok plain_article.
Proof. vm_compute. reflexivity. Qed.

Lemma C7_write_closes_once_witness :
  occurrences END_DOCUMENT (PyTeX._content (snd (PyTeX.write_document plain_article ∅))) = 1.
Proof.
  apply (proj2 (proj2 (C7_write_closes_once plain_article
                         (reachable_init _ _ _ _ _ _ _ _ _ _ _ plain_article_init)))
           _ _ _ _ _ _ _ _ _ _ plain_article_init ∅).
Defined.

Lemma C8_append_content_witness :
  PyTeX._content (snd (PyTeX.append_content plain_article
                         (CMath {| _LaTeXMath.content := "x"; _LaTeXMath.inline := true |})))
  = PyTeX._content plain_article
    ++ ["\begin{math}" +:+ nl +:+ str1 TAB +:+ "x" +:+ nl +:+ "\end{math}" +:+ nl +:+ nl].
Proof.
  rewrite (proj1 (C8_append_content plain_article
                    (CMath {| _LaTeXMath.content := "x"; _LaTeXMath.inline := true |})
                    ltac:(discriminate) eq_refl)).
  reflexivity.
Defined.

(** A text run handed to [append_content] raises [AttributeError]; a closing
    marker at the end of the lines has been removed by then. *)
Lemma append_text_run_raises (self : PyTeX.t) (t : _LaTeXText.t) :
  PyTeX._content self <> [] ->
  PyTeX.append_content self (CText t)
  = (Raise AttributeError,
     {| PyTeX.document := PyTeX.document self;
        PyTeX._content := without_end (PyTeX._content self) |}).
Proof. intros Hne. now rewrite (append_content_spec self (CText t) Hne). Qed.

(** C8 as the specification states it fails twice on a new builder.  A string
    that ends with two newlines is pushed with three, where an entry with
    exactly one newline of its own and one blank line has two; and a text run
    is not used as its string but raises [AttributeError]. *)
Lemma C8_counterexample :
  PyTeX.__init__ "main.tex" "article" 12 "a4paper" None None None None false []
  = Ok plain_article
  /\ PyTeX.append_content plain_article (CStr ("a" +:+ nl +:+ nl))
     = (Ok tt,
        {| PyTeX.document := PyTeX.document plain_article;
           PyTeX._content := PyTeX._content plain_article ++ ["a" +:+ nl +:+ nl +:+ nl] |})
  /\ append_as_specified (PyTeX._content plain_article) (CStr ("a" +:+ nl +:+ nl))
     = PyTeX._content plain_article ++ ["a" +:+ nl +:+ nl]
  /\ PyTeX._content (snd (PyTeX.append_content plain_article (CStr ("a" +:+ nl +:+ nl))))
     <> append_as_specified (PyTeX._content plain_article) (CStr ("a" +:+ nl +:+ nl))
  /\ PyTeX.append_content plain_article (CText (_LaTeXText.__init__ "a"))
     = (Raise AttributeError, plain_article)
  /\ append_as_specified (PyTeX._content plain_article) (CText (_LaTeXText.__init__ "a"))
     = PyTeX._content plain_article ++ ["a" +:+ nl +:+ nl].
Proof.
  split; [exact plain_article_init |].
  repeat split; try (vm_compute; reflexivity).
  vm_compute. discriminate.
Qed.

(** * Further properties of the text and math classes *)

Section Whitespace.

#[local] Arguments String.append !_ _ /.

Lemma isspace_not_slash (c : ascii) : isspace c = true -> Ascii.eqb c "/" = false.
Proof.
  intros Hc. destruct (Ascii.eqb_spec c "/") as [-> |]; [discriminate Hc | reflexivity].
Qed.

Lemma all_space_no_slash (s : string) : all_space s = true -> count "/" s = 0.
Proof.
  induction s as [|c s IH]; [reflexivity |].
  cbn [all_space count]. intros [Hc Hs]%andb_prop.
  now rewrite (isspace_not_slash c Hc), (IH Hs).
Qed.

Lemma lstrip_all_space (s : string) : all_space s = true -> lstrip s = EmptyString.
Proof.
  induction s as [|c s IH]; [reflexivity |].
  cbn [all_space lstrip]. intros [Hc Hs]%andb_prop. now rewrite Hc, (IH Hs).
Qed.

Lemma rstrip_all_space (s : string) : all_space s = true -> rstrip s = EmptyString.
Proof.
  induction s as [|c s IH]; [reflexivity |].
  cbn [all_space rstrip]. intros [Hc Hs]%andb_prop. now rewrite (IH Hs), Hc.
Qed.

Lemma rstrip_pad (s r : string) : all_space r = true -> rstrip (s +:+ r) = rstrip s.
Proof.
  intros Hr. induction s as [|c s IH]; simpl.
  - now apply rstrip_all_space.
  - now rewrite IH.
Qed.

(** Whitespace around a string does not change what [strip] returns. *)
Lemma strip_pad (l s r : string) :
  all_space l = true -> all_space r = true -> strip (l +:+ s +:+ r) = strip s.
Proof.
  intros Hl Hr. unfold strip.
  induction l as [|c l IH]; simpl.
  - induction s as [|c s IHs]; simpl.
    + now rewrite (lstrip_all_space r Hr).
    + destruct (isspace c); [exact IHs |].
      change (String c (s +:+ r)) with (String c s +:+ r). now apply rstrip_pad.
  - cbn [all_space] in Hl. apply andb_prop in Hl as [Hc Hl]. rewrite Hc. now apply IH.
Qed.

Lemma split_pieces (sep : ascii) (s : string) :
  Forall (λ piece, count sep piece = 0) (split sep s).
Proof.
  induction s as [|c s IH]; simpl.
  - repeat constructor.
  - destruct (Ascii.eqb c sep) eqn:Hc.
    + constructor; [reflexivity | exact IH].
    + destruct (split sep s) as [|piece pieces].
      * repeat constructor. simpl. now rewrite Hc.
      * inversion IH as [|? ? Hpiece Hpieces]; subst.
        constructor; [simpl; now rewrite Hc | exact Hpieces].
Qed.

Lemma strip_count (sep : ascii) (s : string) : count sep s = 0 -> count sep (strip s) = 0.
Proof.
  destruct (strip_spec s) as (l & r & Hs & _). intros H.
  rewrite Hs, !count_append in H. lia.
Qed.

End Whitespace.

(** Negation puts one more minus sign in front each time: the negation of a
    negation has two of them, and the flag of the fragment. *)
Lemma neg_neg (m : _LaTeXMath.t) :
  bind (_LaTeXMath.__neg__ m) _LaTeXMath.__neg__
  = Ok {| _LaTeXMath.content := "--" +:+ _LaTeXMath.content m;
          _LaTeXMath.inline := _LaTeXMath.inline m |}.
Proof. reflexivity. Qed.

(** X2. Adding text runs concatenates their contents, whether the right
    operand is a text run or its string, and the sum is associative. *)
Theorem text_add_assoc (a b c : _LaTeXText.t) :
  _LaTeXText.__add__ (_LaTeXText.__add__ a (inl b)) (inl c)
  = _LaTeXText.__add__ a (inl (_LaTeXText.__add__ b (inl c)))
  /\ _LaTeXText.__add__ a (inl b) = _LaTeXText.__add__ a (inr (_LaTeXText.__str__ b))
  /\ _LaTeXText.content (_LaTeXText.__add__ (_LaTeXText.__add__ a (inl b)) (inl c))
     = _LaTeXText.content a +:+ _LaTeXText.content b +:+ _LaTeXText.content c.
Proof.
  unfold _LaTeXText.__add__, _LaTeXText.__init__, _LaTeXText.__str__.
  cbn [_LaTeXText.content]. now rewrite append_assoc.
Qed.

(** X3. Styling in two calls gives what one call gives: a text styled with
    [underline] and [italic], handed to [Text] again with [emph] and [bold],
    is the text styled with all four at once. *)
Theorem text_styles_compose (content : string) (emph bold underline italic : bool) :
  bind (Text.__init__ content false false underline italic)
       (λ inner, Text.__init__ (_LaTeXText.content inner) emph bold false false)
  = Text.__init__ content emph bold underline italic.
Proof. destruct emph, bold, underline, italic; reflexivity. Qed.

(** X4. Whitespace around the numerator and around the denominator does not
    change the fraction. *)
Theorem fraction_ignores_padding (n d l1 r1 l2 r2 : string) (inline : bool) :
  all_space l1 = true -> all_space r1 = true ->
  all_space l2 = true -> all_space r2 = true ->
  count "/" n = 0 -> count "/" d = 0 ->
  Fraction.__init__ (VStr ((l1 +:+ n +:+ r1) +:+ "/" +:+ (l2 +:+ d +:+ r2))) inline
  = Fraction.__init__ (VStr (n +:+ "/" +:+ d)) inline.
Proof.
  intros Hl1 Hr1 Hl2 Hr2 Hn Hd.
  unfold Fraction.__init__. cbn [str].
  change (?a +:+ "/" +:+ ?b) with (a +:+ String "/" b).
  rewrite !split_at_first, !split_no_separator;
    rewrite ?count_append, ?Hn, ?Hd, ?all_space_no_slash by assumption; try reflexivity.
  now rewrite !strip_pad by assumption.
Qed.

Lemma fraction_ignores_padding_witness :
  Fraction.__init__ (VStr ((" " +:+ "6" +:+ " ") +:+ "/" +:+ (" " +:+ "3" +:+ " "))) false
  = Fraction.__init__ (VStr ("6" +:+ "/" +:+ "3")) false.
Proof. apply fraction_ignores_padding; reflexivity. Defined.

(** X5. A fraction cannot be the operand of [Fraction]: the content of a
    fraction holds no [/], so the second call raises [ValueError]. *)
Theorem fraction_of_fraction_raises (operand : value) (inline inline' : bool)
    (m : _LaTeXMath.t) :
  Fraction.__init__ operand inline = Ok m ->
  Fraction.__init__ (VMath m) inline' = Raise ValueError.
Proof.
  unfold Fraction.__init__ at 1.
  pose proof (split_pieces "/" (str operand)) as Hpieces.
  destruct (split "/" (str operand)) as [|n [|d [|x rest]]]; try discriminate.
  inversion Hpieces as [|? ? Hn Hrest]; subst.
  inversion Hrest as [|? ? Hd _]; subst.
  intros [= <-].
  unfold Fraction.__init__. cbn [str _LaTeXMath.__str__ _LaTeXMath.content].
  rewrite split_no_separator; [reflexivity |].
  rewrite !count_append, (strip_count "/" n Hn), (strip_count "/" d Hd). reflexivity.
Qed.

Lemma fraction_of_fraction_raises_witness :
  Fraction.__init__
    (VMath {| _LaTeXMath.content := "\frac{6}{3}"; _LaTeXMath.inline := false |}) true
  = Raise ValueError.
Proof. apply (fraction_of_fraction_raises (VStr "6/3") false true). reflexivity. Defined.

(** X6. A result that is true in a condition ends the content of the
    integral, as [ = {result}], with and without limits. *)
Theorem integral_result_suffix (integrand : value) (limits : option (value * value))
    (r : value) (inline : bool) :
  truth r = true ->
  exists m,
    Integral.__init__ integrand (fst <$> limits) (snd <$> limits) (Some r) inline = Ok m
    /\ endswith (_LaTeXMath.content m) (" = {" +:+ str r +:+ "}") = true
    /\ _LaTeXMath.inline m = inline.
Proof.
  intros Hr. destruct (integral_true_result integrand limits r inline Hr) as [body Hbody].
  eexists. split; [exact Hbody |]. cbn [_LaTeXMath.content _LaTeXMath.inline].
  split; [apply endswith_append | reflexivity].
Qed.

Lemma integral_result_suffix_witness :
  exists m,
    Integral.__init__ (VStr "x") None None (Some (VInt 5)) true = Ok m
    /\ endswith (_LaTeXMath.content m) (" = {" +:+ str (VInt 5) +:+ "}") = true
    /\ _LaTeXMath.inline m = true.
Proof. apply (integral_result_suffix (VStr "x") None (VInt 5) true). reflexivity. Defined.

(** * Further properties of the document *)

(** [start_new_document] in one piece: the first line, then either the
    [TypeError] of the author line with thanks or the rest of the preamble. *)
Lemma start_new_document_exact (self : _LaTeXDocument.t) :
  _LaTeXDocument.start_new_document self
  = bind (_LaTeXDocument.doc_class self)
         (λ first, if author_with_thanks self then Raise TypeError
                   else Ok (first :: preamble_after self)).
Proof.
  unfold _LaTeXDocument.start_new_document, author_with_thanks, preamble_after,
    title_block, option_packages.
  destruct (_LaTeXDocument.doc_class self) as [first|e]; cbn [bind]; [| reflexivity].
  destruct (truthy (_LaTeXDocument.title self)) as [title|];
    rewrite ?title_line; cbn [bind];
    (destruct (truthy (_LaTeXDocument.author self)) as [author|];
     [destruct (truthy (_LaTeXDocument.thanks self)) as [thanks|];
      [rewrite author_thanks_line; reflexivity | rewrite author_line] |]);
    cbn [bind];
    (destruct (truthy (_LaTeXDocument.date self)) as [date|]; rewrite ?date_line; cbn [bind]);
    destruct (_LaTeXDocument.has "abnt" self), (_LaTeXDocument.has "figures" self),
      (_LaTeXDocument.has "float" self), (_LaTeXDocument.has "indentfirst" self),
      (_LaTeXDocument.make_title self); reflexivity.
Qed.

(** X7. [start_new_document] returns exactly when its first line is produced
    and the author does not come with thanks; when the first line is produced
    and the author comes with thanks, the exception is [TypeError]. *)
Theorem start_new_document_returns_iff (self : _LaTeXDocument.t) :
  (returns (_LaTeXDocument.start_new_document self)
   <-> returns (_LaTeXDocument.doc_class self) /\ author_with_thanks self = false)
  /\ (returns (_LaTeXDocument.doc_class self) -> author_with_thanks self = true ->
      _LaTeXDocument.start_new_document self = Raise TypeError).
Proof.
  rewrite start_new_document_exact. unfold returns.
  destruct (_LaTeXDocument.doc_class self) as [first|e]; cbn [bind].
  - destruct (author_with_thanks self).
    + split; [| reflexivity]. split; [intros [a Ha]; discriminate | intros [_ H]; discriminate].
    + split; [| discriminate]. split; eauto.
  - split; [| intros [a Ha]; discriminate].
    split; [intros [a Ha]; discriminate | intros [[a Ha] _]; discriminate].
Qed.

Lemma start_new_document_returns_iff_witness :
  _LaTeXDocument.start_new_document article_with_thanks = Raise TypeError.
Proof.
  apply (proj2 (start_new_document_returns_iff article_with_thanks));
    [eexists |]; reflexivity.
Defined.

(** X8. When the paper type holds no percent sign and the author does not
    come with thanks, the preamble is: the document class line, the encoding
    package, the package lines of the flags, an empty line, the title block,
    the opening marker, [\maketitle] if asked for, and [\frenchspacing].  The
    document type, the title, the author and the date are copied as they
    are, percent signs included. *)
Theorem preamble_layout (self : _LaTeXDocument.t) :
  count "%" (_LaTeXDocument.paper_type self) = 0 ->
  author_with_thanks self = false ->
  _LaTeXDocument.start_new_document self
  = Ok (class_line self :: _LaTeXDocument.INPUTENC_PACKAGE :: option_packages self
        ++ nl :: title_block self
        ++ BEGIN_DOCUMENT
           :: (if _LaTeXDocument.make_title self then ["\maketitle" +:+ nl] else [])
        ++ ["\frenchspacing" +:+ nl +:+ nl]).
Proof.
  intros Hpaper Hauthor.
  rewrite start_new_document_exact, (doc_class_returns self Hpaper). cbn [bind].
  now rewrite Hauthor.
Qed.

Lemma preamble_layout_witness :
  _LaTeXDocument.start_new_document float_only
  = Ok (class_line float_only :: _LaTeXDocument.INPUTENC_PACKAGE :: option_packages float_only
        ++ nl :: title_block float_only
        ++ BEGIN_DOCUMENT
           :: (if _LaTeXDocument.make_title float_only then ["\maketitle" +:+ nl] else [])
        ++ ["\frenchspacing" +:+ nl +:+ nl]).
Proof. apply preamble_layout; reflexivity. Defined.

Lemma has_ext (flag : string) (self1 self2 : _LaTeXDocument.t) :
  (flag ∈ _LaTeXDocument.opts self1 <-> flag ∈ _LaTeXDocument.opts self2) ->
  _LaTeXDocument.has flag self1 = _LaTeXDocument.has flag self2.
Proof. intros H. unfold _LaTeXDocument.has. now apply bool_decide_ext. Qed.

(** X9. The preamble depends on the flags only through which of [abnt],
    [figures], [float] and [indentfirst] are among their lower-case forms:
    the order of the flags, repetitions, and flags outside these four make
    no difference. *)
Theorem preamble_depends_on_vocabulary (path document_type : string) (font_size : Z)
    (paper_type : string) (title author thanks date : option string) (make_title : bool)
    (opts1 opts2 : list string) :
  (forall flag, flag ∈ VOCABULARY ->
     (flag ∈ lower <$> opts1 <-> flag ∈ lower <$> opts2)) ->
  _LaTeXDocument.start_new_document
    (_LaTeXDocument.__init__ path document_type font_size paper_type title author thanks
       date make_title opts1)
  = _LaTeXDocument.start_new_document
      (_LaTeXDocument.__init__ path document_type font_size paper_type title author thanks
         date make_title opts2).
Proof.
  intros Hflags.
  assert (Hhas : forall flag, flag ∈ VOCABULARY ->
            _LaTeXDocument.has flag
              (_LaTeXDocument.__init__ path document_type font_size paper_type title author
                 thanks date make_title opts1)
            = _LaTeXDocument.has flag
                (_LaTeXDocument.__init__ path document_type font_size paper_type title author
                   thanks date make_title opts2)).
  { intros flag Hflag. apply has_ext. cbn [_LaTeXDocument.__init__ _LaTeXDocument.opts].
    rewrite !elem_of_list_to_set. now apply Hflags. }
  rewrite !start_new_document_exact.
  unfold preamble_after, option_packages.
  rewrite !Hhas by decide_by_computation. reflexivity.
Qed.

Lemma preamble_depends_on_vocabulary_witness :
  _LaTeXDocument.start_new_document
    (_LaTeXDocument.__init__ "main.tex" "article" 12 "a4paper" None None None None false
       ["Figures"; "colour"; "abnt"; "FIGURES"])
  = _LaTeXDocument.start_new_document
      (_LaTeXDocument.__init__ "main.tex" "article" 12 "a4paper" None None None None false
         ["abnt"; "figures"]).
Proof.
  apply preamble_depends_on_vocabulary.
  intros flag Hflag. revert flag Hflag. apply Forall_forall. decide_by_computation.
Defined.

(** X10. The flag [float] without the flag [figures] changes nothing: the
    preamble is the one of the same flags without [float]. *)
Theorem float_without_figures_is_inert (path document_type : string) (font_size : Z)
    (paper_type : string) (title author thanks date : option string) (make_title : bool)
    (opts : list string) :
  "figures" ∉ lower <$> opts ->
  _LaTeXDocument.start_new_document
    (_LaTeXDocument.__init__ path document_type font_size paper_type title author thanks
       date make_title ("float" :: opts))
  = _LaTeXDocument.start_new_document
      (_LaTeXDocument.__init__ path document_type font_size paper_type title author thanks
         date make_title opts).
Proof.
  intros Hfigures.
  set (self1 := _LaTeXDocument.__init__ path document_type font_size paper_type title author
                  thanks date make_title ("float" :: opts)).
  set (self2 := _LaTeXDocument.__init__ path document_type font_size paper_type title author
                  thanks date make_title opts).
  assert (Hin : forall flag, flag <> "float" ->
            _LaTeXDocument.has flag self1 = _LaTeXDocument.has flag self2).
  { intros flag Hflag. apply has_ext. unfold self1, self2.
    cbn [_LaTeXDocument.__init__ _LaTeXDocument.opts].
    rewrite !elem_of_list_to_set. cbn [fmap list_fmap].
    change (lower "float") with "float". rewrite elem_of_cons. tauto. }
  assert (Hno : _LaTeXDocument.has "figures" self2 = false).
  { unfold _LaTeXDocument.has, self2. apply bool_decide_eq_false_2.
    cbn [_LaTeXDocument.__init__ _LaTeXDocument.opts]. now rewrite elem_of_list_to_set. }
  rewrite !start_new_document_exact. unfold preamble_after, option_packages.
  rewrite (Hin "abnt"), (Hin "figures"), (Hin "indentfirst"), Hno by discriminate.
  reflexivity.
Qed.

Lemma float_without_figures_is_inert_witness :
  _LaTeXDocument.start_new_document
    (_LaTeXDocument.__init__ "main.tex" "article" 12 "a4paper" None None None None false
       ["float"; "abnt"])
  = _LaTeXDocument.start_new_document
      (_LaTeXDocument.__init__ "main.tex" "article" 12 "a4paper" None None None None false
         ["abnt"]).
Proof. apply float_without_figures_is_inert. decide_by_computation. Defined.

Lemma truthy_idempotent (attr : option string) : truthy (truthy attr) = truthy attr.
Proof. now destruct attr as [[|c s]|]. Qed.

(** X11. A title, an author, thanks or a date given as the empty string is
    treated as one that is not given: replacing each empty string by [None]
    leaves the outcome of [start_new_document] as it is. *)
Theorem empty_fields_are_absent (path document_type : string) (font_size : Z)
    (paper_type : string) (title author thanks date : option string) (make_title : bool)
    (opts : list string) :
  _LaTeXDocument.start_new_document
    (_LaTeXDocument.__init__ path document_type font_size paper_type title author thanks
       date make_title opts)
  = _LaTeXDocument.start_new_document
      (_LaTeXDocument.__init__ path document_type font_size paper_type (truthy title)
         (truthy author) (truthy thanks) (truthy date) make_title opts).
Proof.
  rewrite !start_new_document_exact.
  unfold author_with_thanks, preamble_after, title_block.
  cbn [_LaTeXDocument.__init__ _LaTeXDocument.title _LaTeXDocument.author
         _LaTeXDocument.thanks _LaTeXDocument.date _LaTeXDocument.make_title].
  rewrite !truthy_idempotent. reflexivity.
Qed.

(** X12. Thanks without an author are ignored: when the author is not given
    or empty, the outcome of [start_new_document] is the same for every value
    of the thanks, and it is not the [TypeError] of the author line. *)
Theorem thanks_without_author_ignored (path document_type : string) (font_size : Z)
    (paper_type : string) (title author thanks thanks' date : option string)
    (make_title : bool) (opts : list string) :
  truthy author = None ->
  _LaTeXDocument.start_new_document
    (_LaTeXDocument.__init__ path document_type font_size paper_type title author thanks
       date make_title opts)
  = _LaTeXDocument.start_new_document
      (_LaTeXDocument.__init__ path document_type font_size paper_type title author thanks'
         date make_title opts)
  /\ (count "%" paper_type = 0 ->
      returns (_LaTeXDocument.start_new_document
                 (_LaTeXDocument.__init__ path document_type font_size paper_type title
                    author thanks date make_title opts))).
Proof.
  intros Hauthor. split.
  - rewrite !start_new_document_exact.
    unfold author_with_thanks, preamble_after, title_block.
    cbn [_LaTeXDocument.__init__ _LaTeXDocument.title _LaTeXDocument.author
           _LaTeXDocument.thanks _LaTeXDocument.date _LaTeXDocument.make_title].
    rewrite Hauthor. reflexivity.
  - intros Hpaper. rewrite start_new_document_exact, doc_class_returns by exact Hpaper.
    unfold author_with_thanks. cbn [bind _LaTeXDocument.__init__ _LaTeXDocument.author].
    rewrite Hauthor. eexists. reflexivity.
Qed.

Lemma thanks_without_author_ignored_witness :
  _LaTeXDocument.start_new_document
    (_LaTeXDocument.__init__ "main.tex" "article" 12 "a4paper" None (Some EmptyString)
       (Some "CNPq") None false [])
  = _LaTeXDocument.start_new_document
      (_LaTeXDocument.__init__ "main.tex" "article" 12 "a4paper" None (Some EmptyString)
         None None false []).
Proof. apply thanks_without_author_ignored. reflexivity. Defined.

(** * Further properties of the builder *)

Section Lines.

#[local] Arguments String.append !_ _ /.

Lemma endswith_app_r (a b suffix : string) :
  endswith b suffix = true -> endswith (a +:+ b) suffix = true.
Proof.
  intros Hb. induction a as [|c a IH]; simpl; [exact Hb |].
  rewrite IH. match goal with |- (if ?b then _ else _) = _ => now destruct b end.
Qed.

Lemma endswith_newline_inv (s : string) :
  endswith s nl = true -> exists s', s = s' +:+ nl.
Proof.
  induction s as [|c s IH]; [discriminate |].
  cbn [endswith]. destruct (String.eqb_spec (String c s) nl) as [-> | _].
  - intros _. now exists EmptyString.
  - intros [s' ->]%IH. now exists (String c s').
Qed.

Lemma not_endswith_app (s t : string) :
  t <> EmptyString -> endswith t nl = false -> endswith (s +:+ t) nl = false.
Proof.
  intros Hne Ht. induction s as [|c s IH]; [exact Ht |].
  change (String c s +:+ t) with (String c (s +:+ t)). cbn [endswith].
  rewrite IH.
  destruct (String.eqb_spec (String c (s +:+ t)) nl) as [Heq | _]; [| reflexivity].
  injection Heq as _ Heq. destruct s; simpl in Heq; [contradiction | discriminate].
Qed.

Lemma concat_cons (line : string) (lines : list string) :
  String.concat EmptyString (line :: lines) = line +:+ String.concat EmptyString lines.
Proof. destruct lines; simpl; [now rewrite append_empty_r | reflexivity]. Qed.

Lemma concat_app (lines1 lines2 : list string) :
  String.concat EmptyString (lines1 ++ lines2)
  = String.concat EmptyString lines1 +:+ String.concat EmptyString lines2.
Proof.
  induction lines1 as [|line lines1 IH]; [reflexivity |].
  change ((line :: lines1) ++ lines2) with (line :: (lines1 ++ lines2)).
  now rewrite !concat_cons, IH, append_assoc.
Qed.

(** A format that ends with a newline gives a string that ends with a
    newline, whenever it gives one. *)
Lemma format_from_newline (fmt : string) :
  forall (ph : phase) (arg : option string) (r : string),
    format_from ph arg (fmt +:+ nl) = Ok r -> endswith r nl = true.
Proof.
  induction fmt as [|c fmt IH]; intros ph arg r.
  - change (EmptyString +:+ nl) with (String LF EmptyString).
    destruct ph, arg; vm_compute; intros H; first [discriminate H | now injection H as <-].
  - change (String c fmt +:+ nl) with (String c (fmt +:+ nl)). cbn [format_from].
    destruct (step ph arg c) as [ph' | out consumed | e]; [apply IH | | discriminate].
    destruct (format_from Literal _ (fmt +:+ nl)) as [rest|e] eqn:Hrest; cbn [bind];
      [| discriminate].
    intros [= <-]. apply endswith_app_r. eapply IH, Hrest.
Qed.

End Lines.

Lemma entry_two_newlines (content : content_arg) :
  endswith (entry content) (nl +:+ nl) = true.
Proof.
  unfold entry. destruct (endswith (markup content) nl) eqn:Hends.
  - apply endswith_newline_inv in Hends as [s' ->].
    rewrite append_assoc. apply endswith_append.
  - rewrite append_assoc. apply endswith_append.
Qed.

Lemma math_entry (m : _LaTeXMath.t) :
  entry (CMath m) = markup (CMath m) +:+ nl +:+ nl.
Proof.
  unfold entry.
  assert (Hends : endswith (markup (CMath m)) nl = false).
  { unfold markup. destruct (_LaTeXMath.inline m).
    - rewrite <- !append_assoc. now apply not_endswith_app.
    - rewrite <- !append_assoc. now apply not_endswith_app. }
  now rewrite Hends, append_assoc.
Qed.



(** X14. In no state of a builder does a method raise [IndexError]:
    [write_document] always returns, and [append_content] returns for a
    string and for a math fragment and raises [AttributeError] for a text
    run. *)
Theorem builder_exceptions (self : PyTeX.t) (content : content_arg) (fs : files) :
  reachable self ->
  returns (fst (PyTeX.write_document self fs))
  /\ fst (PyTeX.append_content self content)
     = (if is_text_run content then Raise AttributeError else Ok tt)
  /\ fst (PyTeX._remove_end_content self) = Ok tt.
Proof.
  intros Hne%reachable_well_formed%well_formed_nonempty.
  rewrite (write_document_spec self fs Hne), (append_content_spec self content Hne),
    (remove_end_content self Hne).
  split; [eexists; reflexivity |]. split; [| reflexivity].
  now destruct (is_text_run content).
Qed.

Lemma builder_exceptions_witness :
  fst (PyTeX.append_content plain_article (CText (_LaTeXText.__init__ "a")))
  = Raise AttributeError.
Proof.
  apply (builder_exceptions plain_article (CText (_LaTeXText.__init__ "a")) ∅
           (reachable_init _ _ _ _ _ _ _ _ _ _ _ plain_article_init)).
Defined.

(** X15. Every line that [append_content] pushes ends with two newlines, and
    the line of a math fragment is its environment followed by exactly two
    newlines, whatever the content of the fragment. *)
Theorem appended_line_ends_blank (self : PyTeX.t) (content : content_arg) :
  PyTeX._content self <> [] ->
  is_text_run content = false ->
  exists line,
    last (PyTeX._content (snd (PyTeX.append_content self content))) = Some line
    /\ endswith line (nl +:+ nl) = true
    /\ (forall m, content = CMath m ->
        line = (if _LaTeXMath.inline m
                then "\begin{math}" +:+ nl +:+ str1 TAB +:+ _LaTeXMath.content m +:+ nl
                     +:+ "\end{math}"
                else "\begin{equation}" +:+ nl +:+ str1 TAB +:+ _LaTeXMath.content m +:+ nl
                     +:+ "\end{equation}") +:+ nl +:+ nl).
Proof.
  intros Hne Htext. rewrite (append_content_spec self content Hne), Htext.
  cbn [snd PyTeX._content]. exists (entry content).
  split; [apply last_snoc |]. split; [apply entry_two_newlines |].
  intros m ->. rewrite math_entry. unfold markup.
  destruct (_LaTeXMath.inline m); reflexivity.
Qed.

Lemma appended_line_ends_blank_witness :
  exists line,
    last (PyTeX._content (snd (PyTeX.append_content plain_article (CStr "text")))) = Some line
    /\ endswith line (nl +:+ nl) = true
    /\ (forall m, CStr "text" = CMath m ->
        line = (if _LaTeXMath.inline m
                then "\begin{math}" +:+ nl +:+ str1 TAB +:+ _LaTeXMath.content m +:+ nl
                     +:+ "\end{math}"
                else "\begin{equation}" +:+ nl +:+ str1 TAB +:+ _LaTeXMath.content m +:+ nl
                     +:+ "\end{equation}") +:+ nl +:+ nl).
Proof. apply appended_line_ends_blank; [discriminate | reflexivity]. Defined.


Lemma entries_not_end (contents : list content_arg) :
  Forall (λ l, l <> END_DOCUMENT) (entry <$> contents).
Proof. apply Forall_fmap, Forall_forall. intros content _. apply entry_not_end. Qed.

(** X16. A write before an append leaves no trace in the builder: the lines
    after the append are the same with and without the write, for every
    content that is appended, accepted or not. *)
Theorem write_then_append (self : PyTeX.t) (content : content_arg) (fs : files) :
  PyTeX._content self <> [] ->
  snd (PyTeX.append_content (snd (PyTeX.write_document self fs)) content)
  = snd (PyTeX.append_content self content).
Proof.
  intros Hne. rewrite (write_document_spec self fs Hne). cbn zeta. cbn [snd].
  rewrite !append_content_spec; [| exact Hne |].
  - cbn [PyTeX.document PyTeX._content]. rewrite without_end_closed. reflexivity.
  - cbn [PyTeX._content]. now destruct (without_end (PyTeX._content self)).
Qed.

Lemma write_then_append_witness :
  snd (PyTeX.append_content (snd (PyTeX.write_document plain_article ∅)) (CStr "text"))
  = snd (PyTeX.append_content plain_article (CStr "text")).
Proof. apply write_then_append. discriminate. Defined.

(** Appending a list of strings and math fragments to a builder with at
    least one line. *)
Lemma append_each_spec (contents : list content_arg) :
  forall self : PyTeX.t,
    PyTeX._content self <> [] ->
    Forall (λ content, is_text_run content = false) contents ->
    append_each contents self
    = (Ok tt,
       {| PyTeX.document := PyTeX.document self;
          PyTeX._content :=
            match contents with
            | [] => PyTeX._content self
            | _ => without_end (PyTeX._content self) ++ (entry <$> contents)
            end |}).
Proof.
  induction contents as [|content contents IH]; intros self Hne Hall.
  - now destruct self.
  - inversion Hall as [|? ? Hcontent Hrest]; subst.
    cbn [append_each]. rewrite (append_content_spec self content Hne), Hcontent.
    rewrite IH; [| cbn; now destruct (without_end (PyTeX._content self)) | exact Hrest].
    cbn [PyTeX.document PyTeX._content]. f_equal. f_equal.
    destruct contents as [|content' contents']; [reflexivity |].
    unfold without_end at 1. rewrite last_snoc.
    pose proof (entry_not_end content) as Hentry. apply String.eqb_neq in Hentry.
    rewrite Hentry, <- app_assoc. reflexivity.
Qed.

(** X17. Strings and math fragments appended to a new builder, then one
    write: the lines written are the preamble, one line for each content in
    the order of the calls, and the closing marker, so their number is the
    number of preamble lines plus the number of contents plus one. *)
Theorem append_then_write (path document_type : string) (font_size : Z)
    (paper_type : string) (title author thanks date : option string) (make_title : bool)
    (opts : list string) (start : PyTeX.t) (contents : list content_arg) (fs : files) :
  PyTeX.__init__ path document_type font_size paper_type title author thanks date
    make_title opts = Ok start ->
  Forall (λ content, is_text_run content = false) contents ->
  exists appended,
    append_each contents start = (Ok tt, appended)
    /\ PyTeX._content appended = PyTeX._content start ++ (entry <$> contents)
    /\ PyTeX._content (snd (PyTeX.write_document appended fs))
       = PyTeX._content start ++ (entry <$> contents) ++ [END_DOCUMENT]
    /\ length (PyTeX._content (snd (PyTeX.write_document appended fs)))
       = length (PyTeX._content start) + length contents + 1.
Proof.
  intros Hinit Hall.
  destruct (init_well_formed _ _ _ _ _ _ _ _ _ _ _ Hinit) as (Hwf & _ & Hend).
  pose proof (well_formed_nonempty _ Hwf) as Hne.
  pose proof (occurrences_zero _ _ Hend) as Hstart.
  eexists. split; [apply (append_each_spec contents start Hne Hall) |].
  cbn [PyTeX._content].
  assert (Hlines : match contents with
                   | [] => PyTeX._content start
                   | _ => without_end (PyTeX._content start) ++ (entry <$> contents)
                   end = PyTeX._content start ++ (entry <$> contents)).
  { rewrite (without_end_body _ Hstart). destruct contents; [now rewrite app_nil_r | reflexivity]. }
  rewrite Hlines. split; [reflexivity |].
  rewrite write_document_spec;
    [| cbn [PyTeX._content]; now destruct (PyTeX._content start)].
  cbn zeta. cbn [snd PyTeX._content].
  rewrite without_end_body
    by (apply Forall_app; split; [exact Hstart | apply entries_not_end]).
  rewrite <- app_assoc. split; [reflexivity |].
  rewrite !length_app, length_fmap. cbn [length]. lia.
Qed.

Lemma append_then_write_witness :
  exists appended,
    append_each [CStr "text"; CStr "text"] plain_article = (Ok tt, appended)
    /\ PyTeX._content appended
       = PyTeX._content plain_article ++ (entry <$> [CStr "text"; CStr "text"])
    /\ PyTeX._content (snd (PyTeX.write_document appended ∅))
       = PyTeX._content plain_article ++ (entry <$> [CStr "text"; CStr "text"])
         ++ [END_DOCUMENT]
    /\ length (PyTeX._content (snd (PyTeX.write_document appended ∅)))
       = length (PyTeX._content plain_article) + length [CStr "text"; CStr "text"] + 1.
Proof.
  apply (append_then_write _ _ _ _ _ _ _ _ _ _ plain_article [CStr "text"; CStr "text"] ∅
           plain_article_init).
  repeat constructor.
Defined.



Lemma title_block_newlines (self : _LaTeXDocument.t) :
  Forall (λ l, endswith l nl = true) (title_block self).
Proof.
  unfold title_block.
  destruct (truthy (_LaTeXDocument.title self)), (truthy (_LaTeXDocument.author self)),
    (truthy (_LaTeXDocument.date self));
    repeat constructor; rewrite <- !append_assoc; apply endswith_append.
Qed.

Lemma first_line_newline (self : _LaTeXDocument.t) (first : string) :
  _LaTeXDocument.doc_class self = Ok first -> endswith first nl = true.
Proof.
  unfold _LaTeXDocument.doc_class, str_mod. rewrite <- !append_assoc.
  apply format_from_newline.
Qed.

Lemma preamble_after_newlines (self : _LaTeXDocument.t) :
  Forall (λ l, endswith l nl = true) (preamble_after self).
Proof.
  unfold preamble_after, option_packages.
  constructor; [reflexivity |].
  apply Forall_app. split.
  { destruct (_LaTeXDocument.has "abnt" self), (_LaTeXDocument.has "figures" self),
      (_LaTeXDocument.has "float" self), (_LaTeXDocument.has "indentfirst" self);
      repeat constructor. }
  constructor; [reflexivity |].
  apply Forall_app. split; [apply title_block_newlines |].
  destruct (_LaTeXDocument.make_title self); repeat constructor.
Qed.

(** X19. Whenever [start_new_document] returns, every line of the preamble
    ends with a newline, the first one too, whatever the paper type, the
    document type and the title block hold. *)
Theorem preamble_lines_end_with_newline (self : _LaTeXDocument.t) (lines : list string) :
  _LaTeXDocument.start_new_document self = Ok lines ->
  Forall (λ l, endswith l nl = true) lines.
Proof.
  rewrite start_new_document_exact.
  destruct (_LaTeXDocument.doc_class self) as [first|e] eqn:Hfirst; cbn [bind];
    [| discriminate].
  destruct (author_with_thanks self); [discriminate |]. intros [= <-].
  constructor; [now apply (first_line_newline self) | apply preamble_after_newlines].
Qed.

Lemma preamble_lines_end_with_newline_witness :
  Forall (λ l, endswith l nl = true) float_only_lines.
Proof. apply (preamble_lines_end_with_newline float_only). exact float_only_preamble. Defined.

(** In every state of a builder, each line before the closing marker ends
    with a newline. *)
Lemma reachable_lines_newline (self : PyTeX.t) :
  reachable self -> Forall (λ l, endswith l nl = true) (without_end (PyTeX._content self)).
Proof.
  induction 1 as [? ? ? ? ? ? ? ? ? ? self Hinit | self content Hreach IH | self fs Hreach IH].
  - destruct (init_well_formed _ _ _ _ _ _ _ _ _ _ _ Hinit) as (_ & _ & Hend).
    rewrite (without_end_body _ (occurrences_zero _ _ Hend)).
    unfold PyTeX.__init__ in Hinit.
    destruct (_LaTeXDocument.start_new_document _) as [lines|e] eqn:Hlines; cbn [bind] in Hinit;
      [| discriminate].
    injection Hinit as <-. cbn [PyTeX._content].
    rewrite start_new_document_exact in Hlines.
    destruct (_LaTeXDocument.doc_class _) as [first|e] eqn:Hfirst; cbn [bind] in Hlines;
      [| discriminate].
    destruct (author_with_thanks _); [discriminate |]. injection Hlines as <-.
    constructor; [now apply first_line_newline in Hfirst | apply preamble_after_newlines].
  - pose proof (reachable_well_formed self Hreach) as Hwf.
    pose proof (well_formed_nonempty _ Hwf) as Hne.
    apply without_end_well_formed in Hwf as (_ & Hall & _).
    rewrite (append_content_spec self content Hne).
    destruct (is_text_run content); cbn [snd PyTeX._content].
    + now rewrite (without_end_body _ Hall).
    + rewrite without_end_body.
      * apply Forall_app. split; [exact IH |].
        repeat constructor. unfold entry. apply endswith_append.
      * apply Forall_app. split; [exact Hall |]. repeat constructor. apply entry_not_end.
  - pose proof (reachable_well_formed self Hreach) as Hwf.
    pose proof (well_formed_nonempty _ Hwf) as Hne.
    rewrite (write_document_spec self fs Hne). cbn zeta. cbn [snd PyTeX._content].
    now rewrite without_end_closed.
Qed.

(** X20. In every state of a builder, the text that [write_document] stores
    under the path of the document is the lines before the closing marker,
    each ending with a newline, followed by the closing marker: the text ends
    with [\end{document}], with nothing after it. *)
Theorem written_text (self : PyTeX.t) (fs : files) :
  reachable self ->
  exists fs' text,
    fst (PyTeX.write_document self fs) = Ok fs'
    /\ fs' !! _LaTeXDocument.path (PyTeX.document self) = Some text
    /\ text = String.concat EmptyString (without_end (PyTeX._content self)) +:+ END_DOCUMENT
    /\ Forall (λ l, endswith l nl = true) (without_end (PyTeX._content self))
    /\ endswith text END_DOCUMENT = true.
Proof.
  intros Hreach.
  pose proof (well_formed_nonempty _ (reachable_well_formed self Hreach)) as Hne.
  rewrite (write_document_spec self fs Hne). cbn zeta. cbn [fst].
  eexists _, _. split; [reflexivity |]. split; [apply lookup_insert_eq |].
  rewrite concat_app.
  change (String.concat EmptyString [END_DOCUMENT]) with END_DOCUMENT.
  split; [reflexivity |]. split; [now apply reachable_lines_newline |].
  apply endswith_append.
Qed.

Lemma written_text_witness :
  exists fs' text,
    fst (PyTeX.write_document plain_article ∅) = Ok fs'
    /\ fs' !! _LaTeXDocument.path (PyTeX.document plain_article) = Some text
    /\ text = String.concat EmptyString (without_end (PyTeX._content plain_article))
              +:+ END_DOCUMENT
    /\ Forall (λ l, endswith l nl = true) (without_end (PyTeX._content plain_article))
    /\ endswith text END_DOCUMENT = true.
Proof.
  apply (written_text plain_article ∅ (reachable_init _ _ _ _ _ _ _ _ _ _ _ plain_article_init)).
Defined.

(** * Further properties of negation and roots *)

Section Cancellation.

#[local] Arguments String.append !_ _ /.

Lemma length_append (a b : string) :
  String.length (a +:+ b) = String.length a + String.length b.
Proof. induction a as [|c a IH]; simpl; [reflexivity | now rewrite IH]. Qed.

Lemma append_inj_r (a b c : string) : a +:+ c = b +:+ c -> a = b.
Proof.
  revert b. induction a as [|x a IH]; intros [|y b] H.
  - reflexivity.
  - apply (f_equal String.length) in H. rewrite (length_append (String y b)) in H.
    simpl in H. lia.
  - apply (f_equal String.length) in H. rewrite (length_append (String x a)) in H.
    simpl in H. lia.
  - simpl in H. injection H as -> H. now rewrite (IH b H).
Qed.

End Cancellation.

(** X1. Negation is never undone: [n] negations in a row return the
    fragment with [n] minus signs in front of its content and with its
    flag. *)
Theorem negate_times_content (n : nat) (m : _LaTeXMath.t) :
  negate_times n m
  = Ok {| _LaTeXMath.content := minus_signs n +:+ _LaTeXMath.content m;
          _LaTeXMath.inline := _LaTeXMath.inline m |}.
Proof.
  induction n as [|n IH]; cbn [negate_times].
  - now destruct m.
  - rewrite IH. reflexivity.
Qed.

(** X21. [Sqrt] returns for every operand, with the flag it is given, and the
    operand can be read back from the root: two roots are the same fragment
    only if their operands have the same string and their flags agree. *)
Theorem sqrt_injective (a b : value) (inline inline' : bool) :
  returns (Sqrt.__init__ a inline)
  /\ (Sqrt.__init__ a inline = Sqrt.__init__ b inline' -> str a = str b /\ inline = inline').
Proof.
  split; [eexists; reflexivity |].
  unfold Sqrt.__init__, _LaTeXMath.__init__. cbn [bind required].
  intros [= Hcontent Hinline]. split; [| exact Hinline].
  apply (append_inj_r _ _ "}"). exact Hcontent.
Qed.

Lemma sqrt_injective_witness : str (VInt 4) = str (VStr "4") /\ false = false.
Proof. apply (proj2 (sqrt_injective (VInt 4) (VStr "4") false false)). reflexivity. Defined.
